(** * uHTTP: an ASGI micro framework, embedded and verified

    Shallow embedding of [uhttp.py]: the ordered multi-value map
    ([MultiDict], [Headers]), the [Response] value object and its coercion
    [from_any], the streaming body reader [Body], and the two branches of
    [App.__call__] (lifespan and http).

    Conventions of the embedding.
    - A Python [str] is represented by its UTF-8 encoding, a Rocq [string];
      [bytes] is a Rocq [string] too.  [str.encode()] and [bytes.decode()]
      are therefore the identity on representations (text that cannot be
      encoded or decoded is outside the model, except where the source
      guards it).
    - A Python [dict] keeps insertion order: it is an association list with
      unique keys, [pydict].
    - A raised exception is a value: [result] for the pure data model,
      [outcome] for the request pipeline. *)

From Stdlib Require Import String Ascii List ZArith Bool Arith Lia.
Import ListNotations.
Open Scope string_scope.
Open Scope list_scope.

Set Implicit Arguments.
Set Warnings "-register-all".

(** ** Python values *)

(** The dynamically typed values that handlers, hooks and maps carry.
    [VOther cls truth] is an object of any other class (float, tuple, set,
    an uploaded file, ...), with the result of [bool(obj)]. *)
Inductive value : Type :=
| VNone
| VBool (b : bool)
| VInt (n : Z)
| VStr (s : string)
| VBytes (b : string)
| VList (l : list value)
| VDict (d : list (string * value))
| VOther (cls : string) (truth : bool).

(** An exception other than [Response]: its class name and [str(e)]. *)
Record error : Type := mkError { ecls : string; emsg : string }.

Definition AttributeError (msg : string) := mkError "AttributeError" msg.
Definition TypeError (msg : string) := mkError "TypeError" msg.
Definition ValueError (msg : string) := mkError "ValueError" msg.
Definition KeyError (msg : string) := mkError "KeyError" msg.
Definition IndexError (msg : string) := mkError "IndexError" msg.
Definition NameError (msg : string) := mkError "NameError" msg.

Inductive result (A : Type) : Type :=
| Ok (a : A)
| Err (e : error).
Arguments Ok {A} a.
Arguments Err {A} e.

(** ** Python dict: insertion-ordered association list *)

Definition pydict (V : Type) : Type := list (string * V).

Section PyDict.
Variable V : Type.

(** [d.get(k)] *)
Fixpoint dict_get (k : string) (d : pydict V) : option V :=
  match d with
  | [] => None
  | (k', v) :: d' => if String.eqb k k' then Some v else dict_get k d'
  end.

(** [d[k] = v]: an existing key keeps its place, a new key goes last. *)
Fixpoint dict_set (k : string) (v : V) (d : pydict V) : pydict V :=
  match d with
  | [] => [(k, v)]
  | (k', v') :: d' =>
      if String.eqb k k' then (k', v) :: d' else (k', v') :: dict_set k v d'
  end.

(** [del d[k]] (no effect on a missing key: callers test first). *)
Fixpoint dict_del (k : string) (d : pydict V) : pydict V :=
  match d with
  | [] => []
  | (k', v') :: d' =>
      if String.eqb k k' then d' else (k', v') :: dict_del k d'
  end.

(** [d.setdefault(k, dflt)]: the value now stored, and the dict. *)
Definition dict_setdefault (k : string) (dflt : V) (d : pydict V)
  : V * pydict V :=
  match dict_get k d with
  | Some v => (v, d)
  | None => (dflt, dict_set k dflt d)
  end.

(** [list(d)], the iteration order of the keys. *)
Definition dict_keys (d : pydict V) : list string := map fst d.

(** [dict(pairs)] and dict comprehensions: successive [d[k] = v]. *)
Definition dict_of_pairs (l : list (string * V)) : pydict V :=
  fold_left (fun d kv => dict_set (fst kv) (snd kv) d) l [].
End PyDict.

(** [str.lower()] on the ASCII letters. *)
Definition lower_ascii (c : ascii) : ascii :=
  let n := nat_of_ascii c in
  if andb (65 <=? n)%nat (n <=? 90)%nat then ascii_of_nat (n + 32) else c.

Fixpoint lower (s : string) : string :=
  match s with
  | EmptyString => EmptyString
  | String c s' => String (lower_ascii c) (lower s')
  end.

(** [seq[-1]]: IndexError on an empty sequence. *)
Definition last_item (l : list value) : result value :=
  match l with
  | [] => Err (IndexError "list index out of range")
  | _ :: _ => Ok (last l VNone)
  end.

(** ** Classes and attribute lookup

    [MultiDict.__init__] calls a method by name on its argument; whether
    the name resolves is decided by the method resolution order. *)
Inductive class : Type := CHeaders | CMultiDict | CDict | CObject.

(** The names each class body defines (for the builtins: the public
    methods of [dict]; [object] defines only special methods). *)
Definition class_namespace (c : class) : list string :=
  match c with
  | CHeaders =>
      ["__init__"; "__getitem__"; "__setitem__"; "_get"; "get"; "_pop";
       "pop"; "_setdefault"; "setdefault"]
  | CMultiDict =>
      ["__init__"; "__getitem__"; "__setitem__"; "_get"; "get"; "_items";
       "items"; "_pop"; "pop"; "_setdefault"; "setdefault"; "_values";
       "values"; "_update"; "update"]
  | CDict =>
      ["clear"; "copy"; "fromkeys"; "get"; "items"; "keys"; "pop";
       "popitem"; "setdefault"; "update"; "values"]
  | CObject => []
  end.

Definition mro (c : class) : list class :=
  match c with
  | CHeaders => [CHeaders; CMultiDict; CDict; CObject]
  | CMultiDict => [CMultiDict; CDict; CObject]
  | CDict => [CDict; CObject]
  | CObject => [CObject]
  end.

Definition has_attr (c : class) (name : string) : bool :=
  existsb (fun c' => existsb (String.eqb name) (class_namespace c')) (mro c).

(** ** MultiDict *)

Module MultiDict.

(** The underlying dict: key to list of values. *)
Definition t : Type := pydict (list value).

(** What a constructor may be given. *)
Inductive mapping : Type :=
| MNone
| MMulti (c : class) (m : t)          (* a MultiDict or a Headers *)
| MDict (d : pydict value)            (* a plain dict *)
| MSeq (l : list (string * value))    (* a list or tuple of pairs *)
| MOther.

(** [[v] if not isinstance(v, list) else v[:]] *)
Definition wrap (v : value) : list value :=
  match v with
  | VList l => l
  | _ => [v]
  end.

(** [_setdefault(key, default)] *)
Definition _setdefault (key : string) (default : list value) (m : t)
  : list value * t :=
  dict_setdefault key default m.

(** [self._setdefault(key, []).append(value)] *)
Definition append_to (key : string) (v : value) (m : t) : t :=
  let '(l, m') := _setdefault key [] m in
  dict_set key (l ++ [v]) m'.

(** [mapping.itemslist()]: the attribute must resolve first. *)
Definition itemslist (c : class) (m : t) : result (list (string * list value)) :=
  if has_attr c "itemslist" then Ok m
  else Err (AttributeError "object has no attribute 'itemslist'").

Definition __init__ (arg : mapping) : result t :=
  match arg with
  | MNone => Ok []
  | MMulti c m =>
      match itemslist c m with
      | Ok items => Ok (dict_of_pairs items)
      | Err e => Err e
      end
  | MDict d => Ok (dict_of_pairs (map (fun kv => (fst kv, wrap (snd kv))) d))
  | MSeq l => Ok (fold_left (fun m kv => append_to (fst kv) (snd kv) m) l [])
  | MOther => Err (TypeError "Invalid mapping type")
  end.

Definition __getitem__ (key : string) (m : t) : result value :=
  match dict_get key m with
  | Some l => last_item l
  | None => Err (KeyError key)
  end.

Definition __setitem__ (key : string) (v : value) (m : t) : t :=
  let '(l, m') := dict_setdefault key [] m in
  dict_set key (l ++ [v]) m'.

(** [_get(key, default)]; [_get(key)] passes [default_all]. *)
Definition default_all : list value := [VNone].

Definition _get (key : string) (default : list value) (m : t) : list value :=
  match dict_get key m with
  | Some l => l
  | None => default
  end.

Definition get (key : string) (default : value) (m : t) : result value :=
  last_item (match dict_get key m with Some l => l | None => [default] end).

Definition _items (m : t) : list (string * list value) := m.

(** [items()]: every key once, with its last value. *)
Fixpoint items (m : t) : result (list (string * value)) :=
  match m with
  | [] => Ok []
  | (k, l) :: m' =>
      match last_item l, items m' with
      | Ok v, Ok r => Ok ((k, v) :: r)
      | Err e, _ => Err e
      | _, Err e => Err e
      end
  end.

Definition _pop (key : string) (default : list value) (m : t)
  : list value * t :=
  match dict_get key m with
  | Some l => (l, dict_del key m)
  | None => (default, m)
  end.

(** [pop(key, default)]: the returned object and the map afterwards. *)
Definition pop (key : string) (default : value) (m : t) : value * t :=
  let values := match dict_get key m with Some l => l | None => [] end in
  if (1 <? length values)%nat
  then (last values VNone, dict_set key (removelast values) m)
  else match dict_get key m with
       | Some l => (VList l, dict_del key m)
       | None => (default, m)
       end.

Definition setdefault (key : string) (default : value) (m : t)
  : result value * t :=
  let '(l, m') := dict_setdefault key [default] m in (last_item l, m').

Definition _values (m : t) : list (list value) := map snd m.

(** [_update(other)] with a dict of lists: [dict.update]. *)
Definition _update (other : pydict (list value)) (m : t) : t :=
  fold_left (fun d kv => dict_set (fst kv) (snd kv) d) other m.

(** [update(new)]: [super().update(MultiDict(new))] for a plain dict. *)
Definition update (new : pydict value) (m : t) : result t :=
  match __init__ (MDict new) with
  | Ok other => Ok (_update other m)
  | Err e => Err e
  end.

(** Iteration over the map ([for k in m]). *)
Definition keys (m : t) : list string := dict_keys m.

End MultiDict.

(** ** Headers: the case-insensitive map

    [Headers] derives from [MultiDict], so [super()] in its methods is
    [MultiDict]: every method goes through the [MultiDict] method of the
    same name, which wraps and indexes once more.  A Headers built from a
    list of pairs therefore stores, under each lower-case name, a
    one-element sequence whose element is the list of the values. *)

(** [obj[-1]] on a value: the last element of a list, the last byte of
    text or bytes; a dict with text keys has no key [-1]; the other
    classes of the model are not subscriptable. *)
Definition index_last (v : value) : result value :=
  match v with
  | VList l => last_item l
  | VStr s =>
      match String.length s with
      | O => Err (IndexError "string index out of range")
      | S n => Ok (VStr (substring n 1 s))
      end
  | VBytes b =>
      match String.length b with
      | O => Err (IndexError "index out of range")
      | S n =>
          match String.get n b with
          | Some c => Ok (VInt (Z.of_nat (nat_of_ascii c)))
          | None => Err (IndexError "index out of range")
          end
      end
  | VDict _ => Err (KeyError "-1")
  | _ => Err (TypeError "object is not subscriptable")
  end.

Module Headers.

Definition t : Type := MultiDict.t.

(** [_setdefault(key, default)]: [MultiDict.setdefault] with the
    sequence [default] as the default value. *)
Definition _setdefault (key : string) (default : list value) (m : t)
  : result value * t :=
  MultiDict.setdefault (lower key) (VList default) m.

(** [obj.append(v)], where [obj] is the object that [setdefault] returned
    for [key], the last element of the sequence stored under [key]: a
    list grows in place, any other object has no [append]. *)
Definition append_to_last (key : string) (obj v : value) (m : t) : result t :=
  match obj with
  | VList inner =>
      match dict_get key m with
      | Some outer =>
          Ok (dict_set key (removelast outer ++ [VList (inner ++ [v])]) m)
      | None => Ok m
      end
  | _ => Err (AttributeError "object has no attribute 'append'")
  end.

(** [self._setdefault(key, []).append(value)] *)
Definition append_to (key : string) (v : value) (m : t) : result t :=
  let '(r, m') := _setdefault key [] m in
  match r with
  | Ok obj => append_to_last (lower key) obj v m'
  | Err e => Err e
  end.

(** [for key, value in mapping: self._setdefault(key, []).append(value)] *)
Fixpoint append_all (l : list (string * value)) (m : t) : result t :=
  match l with
  | [] => Ok m
  | kv :: l' =>
      match append_to (fst kv) (snd kv) m with
      | Ok m' => append_all l' m'
      | Err e => Err e
      end
  end.

Definition __init__ (arg : MultiDict.mapping) : result t :=
  match arg with
  | MultiDict.MNone => MultiDict.__init__ MultiDict.MNone
  | MultiDict.MMulti c m =>
      match MultiDict.itemslist c m with
      | Ok items =>
          MultiDict.__init__
            (MultiDict.MDict
               (dict_of_pairs
                  (map (fun kv => (lower (fst kv), VList (snd kv))) items)))
      | Err e => Err e
      end
  | MultiDict.MDict d =>
      MultiDict.__init__
        (MultiDict.MDict
           (dict_of_pairs
              (map (fun kv => (lower (fst kv), VList (MultiDict.wrap (snd kv)))) d)))
  | MultiDict.MSeq l =>
      match MultiDict.__init__ MultiDict.MNone with
      | Ok m => append_all l m
      | Err e => Err e
      end
  | MultiDict.MOther => Err (TypeError "Invalid mapping type")
  end.

(** [super().__getitem__(key.lower())[-1]] *)
Definition __getitem__ (key : string) (m : t) : result value :=
  match MultiDict.__getitem__ (lower key) m with
  | Ok v => index_last v
  | Err e => Err e
  end.

(** [super().setdefault(key.lower(), []).append(value)] *)
Definition __setitem__ (key : string) (v : value) (m : t) : result t :=
  let '(r, m') := MultiDict.setdefault (lower key) (VList []) m in
  match r with
  | Ok obj => append_to_last (lower key) obj v m'
  | Err e => Err e
  end.

(** [super().get(key.lower(), list(default))] *)
Definition _get (key : string) (default : list value) (m : t) : result value :=
  MultiDict.get (lower key) (VList default) m.

(** [super().get(key.lower(), [default])[-1]] *)
Definition get (key : string) (default : value) (m : t) : result value :=
  match MultiDict.get (lower key) (VList [default]) m with
  | Ok v => index_last v
  | Err e => Err e
  end.

(** [super().pop(key.lower(), list(default))] *)
Definition _pop (key : string) (default : list value) (m : t) : value * t :=
  MultiDict.pop (lower key) (VList default) m.

(** [pop(key, default)]: [values] is what [MultiDict.get] returns; a list
    of more than one value loses its last value in place, otherwise
    [MultiDict.pop] removes from the stored sequence. *)
Definition pop (key : string) (default : value) (m : t) : result (value * t) :=
  match MultiDict.get (lower key) (VList []) m with
  | Err e => Err e
  | Ok (VList inner) =>
      if (1 <? length inner)%nat
      then match dict_get (lower key) m with
           | Some outer =>
               Ok (last inner VNone,
                   dict_set (lower key)
                            (removelast outer ++ [VList (removelast inner)]) m)
           | None => Ok (last inner VNone, m)
           end
      else Ok (MultiDict.pop (lower key) default m)
  | Ok (VStr s) | Ok (VBytes s) =>
      if (1 <? String.length s)%nat
      then Err (AttributeError "object has no attribute 'pop'")
      else Ok (MultiDict.pop (lower key) default m)
  | Ok (VDict d) =>
      if (1 <? length d)%nat
      then Err (TypeError "pop expected at least 1 argument, got 0")
      else Ok (MultiDict.pop (lower key) default m)
  | Ok _ => Err (TypeError "object has no len()")
  end.

(** [super().setdefault(key.lower(), [default])[-1]] *)
Definition setdefault (key : string) (default : value) (m : t)
  : result value * t :=
  let '(r, m') := MultiDict.setdefault (lower key) (VList [default]) m in
  (match r with Ok v => index_last v | Err e => Err e end, m').

End Headers.

(** ** HTTP status phrases

    [HTTPStatus(n).phrase] of the standard library (CPython 3.9 to 3.12);
    [None] where [HTTPStatus(n)] raises [ValueError]. *)
Definition HTTPStatus_phrase (n : Z) : option string :=
  match n with
  | 100 => Some "Continue"
  | 101 => Some "Switching Protocols"
  | 102 => Some "Processing"
  | 103 => Some "Early Hints"
  | 200 => Some "OK"
  | 201 => Some "Created"
  | 202 => Some "Accepted"
  | 203 => Some "Non-Authoritative Information"
  | 204 => Some "No Content"
  | 205 => Some "Reset Content"
  | 206 => Some "Partial Content"
  | 207 => Some "Multi-Status"
  | 208 => Some "Already Reported"
  | 226 => Some "IM Used"
  | 300 => Some "Multiple Choices"
  | 301 => Some "Moved Permanently"
  | 302 => Some "Found"
  | 303 => Some "See Other"
  | 304 => Some "Not Modified"
  | 305 => Some "Use Proxy"
  | 307 => Some "Temporary Redirect"
  | 308 => Some "Permanent Redirect"
  | 400 => Some "Bad Request"
  | 401 => Some "Unauthorized"
  | 402 => Some "Payment Required"
  | 403 => Some "Forbidden"
  | 404 => Some "Not Found"
  | 405 => Some "Method Not Allowed"
  | 406 => Some "Not Acceptable"
  | 407 => Some "Proxy Authentication Required"
  | 408 => Some "Request Timeout"
  | 409 => Some "Conflict"
  | 410 => Some "Gone"
  | 411 => Some "Length Required"
  | 412 => Some "Precondition Failed"
  | 413 => Some "Request Entity Too Large"
  | 414 => Some "Request-URI Too Long"
  | 415 => Some "Unsupported Media Type"
  | 416 => Some "Requested Range Not Satisfiable"
  | 417 => Some "Expectation Failed"
  | 418 => Some "I'm a Teapot"
  | 421 => Some "Misdirected Request"
  | 422 => Some "Unprocessable Entity"
  | 423 => Some "Locked"
  | 424 => Some "Failed Dependency"
  | 425 => Some "Too Early"
  | 426 => Some "Upgrade Required"
  | 428 => Some "Precondition Required"
  | 429 => Some "Too Many Requests"
  | 431 => Some "Request Header Fields Too Large"
  | 451 => Some "Unavailable For Legal Reasons"
  | 500 => Some "Internal Server Error"
  | 501 => Some "Not Implemented"
  | 502 => Some "Bad Gateway"
  | 503 => Some "Service Unavailable"
  | 504 => Some "Gateway Timeout"
  | 505 => Some "HTTP Version Not Supported"
  | 506 => Some "Variant Also Negotiates"
  | 507 => Some "Insufficient Storage"
  | 508 => Some "Loop Detected"
  | 510 => Some "Not Extended"
  | 511 => Some "Network Authentication Required"
  | _ => None
  end%Z.

(** ** Response *)

Module Response.

Record t : Type := mk {
  status : Z;
  description : string;
  headers : MultiDict.t;
  cookies : pydict string;
  body : string
}.

(** [status in range(400, 600)] *)
Definition is_error_status (n : Z) : bool := ((400 <=? n) && (n <? 600))%Z.

(** [not self.body] *)
Definition is_empty (b : string) : bool :=
  match b with EmptyString => true | _ => false end.

(** [Response(status, headers=..., cookies=..., body=...)] *)
Definition __init__ (st : Z) (hdrs : MultiDict.mapping)
    (cks : pydict string) (bdy : string) : result t :=
  let descr := match HTTPStatus_phrase st with Some p => p | None => "" end in
  match MultiDict.__init__ hdrs with
  | Err e => Err e
  | Ok h =>
      match MultiDict.setdefault "content-type" (VStr "text/html; charset=utf-8") h with
      | (Err e, _) => Err e
      | (Ok _, h') =>
          Ok {| status := st;
                description := descr;
                headers := h';
                cookies := cks;
                body := if is_empty bdy && is_error_status st then descr else bdy |}
      end
  end.

(** The argument of [from_any]: a plain value or a [Response]. *)
Inductive any : Type :=
| AVal (v : value)
| AResp (r : t).

Section FromAny.
(** [json.dumps] of the standard library. *)
Variable json_dumps : pydict value -> result string.

(** The branch [isinstance(any, int)]; [bool] is a subclass of [int]. *)
Definition from_int (n : Z) : result t :=
  match HTTPStatus_phrase n with
  | Some p => __init__ n MultiDict.MNone [] p
  | None => Err (ValueError "is not a valid HTTPStatus")
  end.

Definition from_any (a : any) : result t :=
  match a with
  | AVal (VBool b) => from_int (Z.b2z b)
  | AVal (VInt n) => from_int n
  | AVal (VStr s) => __init__ 200 MultiDict.MNone [] s
  | AVal (VBytes b) => __init__ 200 MultiDict.MNone [] b
  | AVal (VDict d) =>
      match json_dumps d with
      | Ok s =>
          __init__ 200
            (MultiDict.MDict [("content-type", VStr "application/json")]) [] s
      | Err e => Err e
      end
  | AResp r => Ok r
  | AVal VNone => __init__ 204 MultiDict.MNone [] ""
  | AVal (VList _) | AVal (VOther _ _) => Err (TypeError "")
  end.
End FromAny.

(** [bool(obj)], as tested by [if ret := ...]. A [Response] defines
    neither [__bool__] nor [__len__]: it is always true. *)
Definition truthy (a : any) : bool :=
  match a with
  | AResp _ => true
  | AVal VNone => false
  | AVal (VBool b) => b
  | AVal (VInt n) => negb (n =? 0)%Z
  | AVal (VStr s) => negb (is_empty s)
  | AVal (VBytes b) => negb (is_empty b)
  | AVal (VList l) => match l with [] => false | _ => true end
  | AVal (VDict d) => match d with [] => false | _ => true end
  | AVal (VOther _ b) => b
  end.

End Response.

(** Exceptions (subclasses of [Exception]); [Response] is itself an
    exception class. *)
Inductive exn : Type :=
| ExcResponse (r : Response.t)
| ExcError (e : error).

(** [type(e).__name__] and [str(e)] *)
Definition exn_name (e : exn) : string :=
  match e with
  | ExcResponse _ => "Response"
  | ExcError er => ecls er
  end.

Definition exn_str (e : exn) : string :=
  match e with
  | ExcResponse r => Response.description r
  | ExcError er => emsg er
  end.

(** What awaiting a call gives: a value, an exception, or no resumption
    (the transport delivers no further event). *)
Inductive outcome (A : Type) : Type :=
| Done (a : A)
| Raised (e : exn)
| Pending.
Arguments Done {A} a.
Arguments Raised {A} e.
Arguments Pending {A}.

Definition of_result {A : Type} (r : result A) : outcome A :=
  match r with
  | Ok a => Done a
  | Err e => Raised (ExcError e)
  end.

(** [raise Response(status)] *)
Definition raise_Response {A : Type} (st : Z) : outcome A :=
  match Response.__init__ st MultiDict.MNone [] "" with
  | Ok r => Raised (ExcResponse r)
  | Err e => Raised (ExcError e)
  end.

(** ** Request *)

Module Request.

Record t : Type := mk {
  method : string;
  path : string;
  params : pydict value;
  args : MultiDict.t;
  headers : Headers.t;
  cookies : pydict string;
  body : string;
  json : value;
  form : MultiDict.t;
  state : pydict value
}.

(** [Request(method, path, args=..., state=...)], the other keywords at
    their defaults. *)
Definition __init__ (m p : string) (a : MultiDict.mapping)
    (st : pydict value) : result t :=
  match MultiDict.__init__ a with
  | Err e => Err e
  | Ok a' =>
      match Headers.__init__ MultiDict.MNone with
      | Err e => Err e
      | Ok h =>
          match MultiDict.__init__ MultiDict.MNone with
          | Err e => Err e
          | Ok f =>
              Ok {| method := m; path := p; params := []; args := a';
                    headers := h; cookies := []; body := ""; json := VDict [];
                    form := f; state := st |}
          end
      end
  end.

Definition set_headers (h : Headers.t) (r : t) : t :=
  mk (method r) (path r) (params r) (args r) h (cookies r) (body r)
     (json r) (form r) (state r).
Definition set_cookies (c : pydict string) (r : t) : t :=
  mk (method r) (path r) (params r) (args r) (headers r) c (body r)
     (json r) (form r) (state r).
Definition set_json (j : value) (r : t) : t :=
  mk (method r) (path r) (params r) (args r) (headers r) (cookies r) (body r)
     j (form r) (state r).
Definition set_form (f : MultiDict.t) (r : t) : t :=
  mk (method r) (path r) (params r) (args r) (headers r) (cookies r) (body r)
     (json r) f (state r).
Definition set_params (p : pydict value) (r : t) : t :=
  mk (method r) (path r) p (args r) (headers r) (cookies r) (body r)
     (json r) (form r) (state r).

End Request.

(** ** Transport events *)

(** An [http.request] event: [event['body']] and [event.get('more_body')]. *)
Record event : Type := mkEvent { ev_body : string; more_body : bool }.

(** [await receive()] on the events still to come: the next event, or no
    resumption once the transport has nothing more to deliver. *)
Definition receive (stream : list event) : option (event * list event) :=
  match stream with
  | [] => None
  | ev :: rest => Some (ev, rest)
  end.

(** ** Body: the streaming reader *)

Module Body.

Record t : Type := mk { buffer : string; finished : bool }.

(** [Body(receive)] *)
Definition __init__ : t := {| buffer := ""; finished := false |}.

(** [result[:n]] and [result[n:]] for [n > 0] *)
Fixpoint take (n : nat) (s : string) : string :=
  match n, s with
  | O, _ => ""
  | S _, EmptyString => ""
  | S n', String c s' => String c (take n' s')
  end.

Fixpoint drop (n : nat) (s : string) : string :=
  match n, s with
  | O, _ => s
  | S _, EmptyString => ""
  | S n', String _ s' => drop n' s'
  end.

(** The loop [while len(self.buffer) == 0], one event per iteration. *)
Fixpoint fill (b : t) (stream : list event) : outcome unit * t * list event :=
  match String.length (buffer b) with
  | S _ => (Done tt, b, stream)
  | O =>
      match stream with
      | [] => (Pending, b, [])
      | ev :: rest =>
          fill {| buffer := buffer b ++ ev_body ev;
                  finished := if more_body ev then finished b else true |}
               rest
      end
  end.

(** [await body.read(n)]: the bytes returned, the reader and the stream
    afterwards. *)
Definition read (n : Z) (b : t) (stream : list event)
  : outcome string * t * list event :=
  if (n =? 0)%Z then (Done "", b, stream)
  else
    let '(o, b1, stream1) :=
      if finished b then (Done tt, b, stream) else fill b stream in
    match o with
    | Done _ =>
        let res := buffer b1 in
        if (n >? 0)%Z
        then (Done (take (Z.to_nat n) res),
              {| buffer := drop (Z.to_nat n) res; finished := finished b1 |},
              stream1)
        else (Done res, b1, stream1)
    | Raised e => (Raised e, b1, stream1)
    | Pending => (Pending, b1, stream1)
    end.

(** Successive [read(n)] calls, collected until one returns nothing
    (what a consumer such as the JSON parser does). *)
Fixpoint read_until_empty (fuel : nat) (n : Z) (b : t) (stream : list event)
  : option (outcome (list string) * t * list event) :=
  match fuel with
  | O => None
  | S fuel' =>
      match read n b stream with
      | (Done r, b', stream') =>
          if Response.is_empty r then Some (Done [], b', stream')
          else
            match read_until_empty fuel' n b' stream' with
            | Some (Done rs, b'', stream'') => Some (Done (r :: rs), b'', stream'')
            | other => other
            end
      | (Raised e, b', stream') => Some (Raised e, b', stream')
      | (Pending, b', stream') => Some (Pending, b', stream')
      end
  end.

End Body.

(** ** Query strings: [urllib.parse.unquote] and [urllib.parse.parse_qsl]

    Models of the two standard-library functions (CPython 3.9.2 and later:
    the only separator is [&]), on byte representations.  The replacement
    of undecodable bytes by U+FFFD is not modelled. *)

Definition hex_digit (c : ascii) : option nat :=
  let n := nat_of_ascii c in
  if andb (48 <=? n)%nat (n <=? 57)%nat then Some (n - 48)%nat
  else if andb (65 <=? n)%nat (n <=? 70)%nat then Some (n - 55)%nat
  else if andb (97 <=? n)%nat (n <=? 102)%nat then Some (n - 87)%nat
  else None.

(** [unquote(s)]: every [%XX] with two hexadecimal digits becomes the byte
    it denotes; any other [%] stays. *)
Fixpoint unquote (s : string) : string :=
  match s with
  | EmptyString => EmptyString
  | String c s' =>
      if Ascii.eqb c "%"
      then match s' with
           | String a (String b rest) =>
               match hex_digit a, hex_digit b with
               | Some x, Some y =>
                   String (ascii_of_nat (16 * x + y)) (unquote rest)
               | _, _ => String c (unquote s')
               end
           | _ => String c (unquote s')
           end
      else String c (unquote s')
  end.

(** [s.split(sep)] for a one-character separator. *)
Fixpoint split_on (sep : ascii) (s : string) : list string :=
  match s with
  | EmptyString => [EmptyString]
  | String c s' =>
      if Ascii.eqb c sep then EmptyString :: split_on sep s'
      else match split_on sep s' with
           | [] => [String c EmptyString]
           | w :: ws => String c w :: ws
           end
  end.

(** [s.split(sep, 1)]: [None] when [sep] does not occur (one piece). *)
Fixpoint split_once (sep : ascii) (s : string) : option (string * string) :=
  match s with
  | EmptyString => None
  | String c s' =>
      if Ascii.eqb c sep then Some (EmptyString, s')
      else match split_once sep s' with
           | Some (a, b) => Some (String c a, b)
           | None => None
           end
  end.

(** [s.replace('+', ' ')] *)
Fixpoint plus_to_space (s : string) : string :=
  match s with
  | EmptyString => EmptyString
  | String c s' => String (if Ascii.eqb c "+" then " "%char else c) (plus_to_space s')
  end.

(** [parse_qsl(qs)] with its defaults: blank values are dropped, fields
    without [=] are skipped. *)
Definition parse_qsl (qs : string) : list (string * string) :=
  flat_map
    (fun name_value =>
       match split_once "=" name_value with
       | Some (n, v) =>
           if Response.is_empty v then []
           else [(unquote (plus_to_space n), unquote (plus_to_space v))]
       | None => []
       end)
    (split_on "&" qs).

(** [content_type.split(b'+')[0]] *)
Definition before_plus (s : string) : string :=
  match split_on "+" s with
  | [] => s
  | w :: _ => w
  end.

(** ** Content decoders *)

Inductive decoder : Type := JsonDecoder | FormDecoder | NoDecoder.

(** The [if]/[elif] on the parsed content type in [App.__call__]. *)
Definition select_decoder (content_type : string) : decoder :=
  if String.eqb (before_plus content_type) "application/json" then JsonDecoder
  else if String.eqb content_type "application/x-www-form-urlencoded"
          || String.eqb content_type "multipart/form-data"
       then FormDecoder
       else NoDecoder.

(** ** Imported libraries

    The behaviour of [re], [json], [ijson], [multipart], [http.cookies] and
    [unicodedata] that the application relies on. *)
Record Lib : Type := mkLib {
  (** [re]: compiled patterns; [fullmatch] gives [groupdict()] on a match. *)
  pattern : Type;
  re_compile : string -> result pattern;
  fullmatch : pattern -> string -> option (pydict value);
  (** [json.dumps] *)
  json_dumps : pydict value -> result string;
  (** [bytes.decode()]: [None] is [UnicodeDecodeError]. *)
  decode_utf8 : string -> option string;
  (** [unicodedata.normalize('NFC', _)] *)
  normalize_NFC : string -> string;
  (** [SimpleCookie.load]: [None] is [CookieError]. *)
  cookie_load : string -> option (pydict string);
  (** [parse_options_header]: content type and parameters. *)
  parse_options_header : string -> string * pydict string;
  (** [ijson.items(body, '')] pulling from a [Body]: the items yielded and
      the events left. *)
  ijson_items : Body.t -> list event -> outcome (list value) * list event;
  (** [multipart]'s form parser: [write] and [finalize] give the fields
      and files for which the callbacks fire, in order. *)
  form_parser : Type;
  create_form_parser : Headers.t -> result form_parser;
  fp_write : form_parser -> string -> result (form_parser * list (string * value));
  fp_finalize : form_parser -> result (list (string * value))
}.

(** The exception classes caught with the JSON decoder:
    [UnicodeDecodeError] and [ijson.JSONError] with its subclass. *)
Definition is_json_error (e : exn) : bool :=
  match e with
  | ExcError er =>
      String.eqb (ecls er) "UnicodeDecodeError"
      || String.eqb (ecls er) "JSONError"
      || String.eqb (ecls er) "IncompleteJSONError"
  | ExcResponse _ => false
  end.

(** [k.decode('ascii')]: [None] is [UnicodeDecodeError]. *)
Fixpoint decode_ascii (s : string) : option string :=
  match s with
  | EmptyString => Some EmptyString
  | String c s' =>
      if (nat_of_ascii c <? 128)%nat
      then match decode_ascii s' with
           | Some r => Some (String c r)
           | None => None
           end
      else None
  end.

(** Which call site invoked a function, and the function's name. *)
Inductive call : Type :=
| CallStartup (name : string)
| CallShutdown (name : string)
| CallBefore (name : string)
| CallHandler (name : string)
| CallAfter (name : string).

(** The connection scope of an http request. *)
Record scope : Type := mkScope {
  sc_method : string;
  sc_path : string;
  query_string : string;
  sc_headers : list (string * string);
  sc_state : option (pydict value)
}.

(** Messages sent on the lifespan channel. *)
Record message : Type := mkMessage { msg_type : string; msg_text : option string }.

(** ** The application *)

Section Application.

(** Everything outside the framework that hooks and handlers can read
    or change. *)
Variable W : Type.
Variable L : Lib.

(** A registered function: called with its (mutable) arguments, it
    returns or raises, and leaves the arguments and the world as it
    changed them. *)
Record func (Args : Type) : Type := mkFunc {
  fname : string;
  fbody : Args -> W -> outcome Response.any * Args * W
}.

Definition handler : Type := func Request.t.
Definition methods_table : Type := pydict handler.

(** [self._routes]: keyed by path strings until the startup event
    replaces the keys by compiled patterns. *)
Inductive routes : Type :=
| Uncompiled (r : pydict methods_table)
| Compiled (r : list (pattern L * methods_table)).

Record App : Type := mkApp {
  _routes : routes;
  _startup : list (func (pydict value));
  _shutdown : list (func (pydict value));
  _before : list (func Request.t);
  _after : list (func (Request.t * Response.t));
  _max_content : Z
}.

Definition set_routes (r : routes) (app : App) : App :=
  mkApp r (_startup app) (_shutdown app) (_before app) (_after app)
        (_max_content app).

(** [App.route(path, methods)(func)] on the route table:
    [setdefault(path, {}).update({method: func for method in methods})]. *)
Definition route (path : string) (methods : list string) (f : handler)
    (table : pydict methods_table) : pydict methods_table :=
  let '(tbl, table') := dict_setdefault path [] table in
  dict_set path (fold_left (fun t m => dict_set m f t) methods tbl) table'.

(** *** The per-request context and its monad *)

Record ctx : Type := mkCtx {
  request : Request.t;
  stream : list event;
  world : W;
  trace : list call
}.

Definition with_request (r : Request.t) (c : ctx) : ctx :=
  mkCtx r (stream c) (world c) (trace c).
Definition with_stream (s : list event) (c : ctx) : ctx :=
  mkCtx (request c) s (world c) (trace c).

(** A step of the pipeline: its outcome, and the context as it left it
    (changes made before an exception stay). *)
Definition M (A : Type) : Type := ctx -> outcome A * ctx.

Definition ret {A : Type} (a : A) : M A := fun c => (Done a, c).

Definition bind {A B : Type} (m : M A) (k : A -> M B) : M B :=
  fun c =>
    match m c with
    | (Done a, c') => k a c'
    | (Raised e, c') => (Raised e, c')
    | (Pending, c') => (Pending, c')
    end.

Definition lift {A : Type} (o : outcome A) : M A := fun c => (o, c).

(** [try: m  except Response as r: h r] *)
Definition try_except_Response {A : Type} (m : M A) (h : Response.t -> M A)
  : M A :=
  fun c =>
    match m c with
    | (Raised (ExcResponse r), c') => h r c'
    | other => other
    end.

Notation "x <- m ;; k" := (bind m (fun x => k))
  (at level 61, m at next level, right associativity).
Notation "m ;;; k" := (bind m (fun _ => k))
  (at level 61, right associativity).

(** [await asyncfy(func, request)] from the call site [tag]. *)
Definition asyncfy (tag : string -> call) (f : func Request.t)
  : M Response.any :=
  fun c =>
    let '(o, req', w') := fbody f (request c) (world c) in
    (o, mkCtx req' (stream c) w' (trace c ++ [tag (fname f)])).

(** [await asyncfy(func, request, response)] *)
Definition asyncfy_after (f : func (Request.t * Response.t))
    (resp : Response.t) : M (Response.any * Response.t) :=
  fun c =>
    let '(o, (req', resp'), w') := fbody f (request c, resp) (world c) in
    let c' := mkCtx req' (stream c) w' (trace c ++ [CallAfter (fname f)]) in
    match o with
    | Done a => (Done (a, resp'), c')
    | Raised e => (Raised e, c')
    | Pending => (Pending, c')
    end.

(** [raise Response.from_any(ret)] *)
Definition raise_from_any {A : Type} (a : Response.any) : M A :=
  match Response.from_any (json_dumps L) a with
  | Ok r => lift (Raised (ExcResponse r))
  | Err e => lift (Raised (ExcError e))
  end.

(** *** Headers, cookies, content *)

Fixpoint decode_headers (raw : list (string * string))
  : option (list (string * value)) :=
  match raw with
  | [] => Some []
  | (k, v) :: raw' =>
      match decode_ascii k, decode_utf8 L v with
      | Some k', Some v' =>
          match decode_headers raw' with
          | Some r => Some ((k', VStr (normalize_NFC L v')) :: r)
          | None => None
          end
      | _, _ => None
      end
  end.

Definition parse_headers (raw : list (string * string)) : M unit :=
  fun c =>
    match decode_headers raw with
    | Some pairs =>
        match Headers.__init__ (MultiDict.MSeq pairs) with
        | Ok h => (Done tt, with_request (Request.set_headers h (request c)) c)
        | Err e => (Raised (ExcError e), c)
        end
    | None => (raise_Response 400, c)
    end.

(** [request.headers.get(name, '')], which the callers use as text. *)
Definition header_text (name : string) : M string :=
  fun c =>
    match Headers.get name (VStr "") (Request.headers (request c)) with
    | Ok (VStr s) => (Done s, c)
    | Ok _ => (Raised (ExcError (AttributeError "")), c)
    | Err e => (Raised (ExcError e), c)
    end.

Definition load_cookies : M unit :=
  s <- header_text "cookie" ;;
  fun c =>
    match cookie_load L s with
    | Some ck => (Done tt, with_request (Request.set_cookies ck (request c)) c)
    | None => (raise_Response 400, c)
    end.

(** [async for json in ijson.items(Body(receive), ''): request.json = json] *)
Definition decode_json : M unit :=
  fun c =>
    let '(o, stream') := ijson_items L Body.__init__ (stream c) in
    let c' := with_stream stream' c in
    match o with
    | Done items =>
        (Done tt,
         with_request
           (fold_left (fun r j => Request.set_json j r) items (request c')) c')
    | Raised e =>
        if is_json_error e then (raise_Response 400, c') else (Raised e, c')
    | Pending => (Pending, c')
    end.

(** The callbacks [on_field] and [on_file]: [form[name] = value]. *)
Definition add_fields (fields : list (string * value)) (r : Request.t)
  : Request.t :=
  Request.set_form
    (fold_left (fun f kv => MultiDict.__setitem__ (fst kv) (snd kv) f)
               fields (Request.form r))
    r.

(** The loop [while True] feeding the form parser, one event per
    iteration.  [request.body] is the attribute set by
    [Request.__init__]; the name [HTTPException] is bound nowhere in the
    module, so evaluating [HTTPException(413)] raises [NameError]. *)
Fixpoint form_loop (max_content : Z) (fp : form_parser L) (req : Request.t)
    (events : list event)
  : outcome (form_parser L) * Request.t * list event :=
  match events with
  | [] => (Pending, req, [])
  | ev :: rest =>
      match fp_write L fp (ev_body ev) with
      | Err e => (Raised (ExcError e), req, rest)
      | Ok (fp', fields) =>
          let req' := add_fields fields req in
          if (Z.of_nat (String.length (Request.body req')) >? max_content)%Z
          then (Raised (ExcError (NameError "name 'HTTPException' is not defined")),
                req', rest)
          else if more_body ev then form_loop max_content fp' req' rest
          else (Done fp', req', rest)
      end
  end.

Definition decode_form (max_content : Z) : M unit :=
  fun c =>
    let req0 := Request.set_form [] (request c) in
    let c0 := with_request req0 c in
    match create_form_parser L (Request.headers req0) with
    | Err e => (Raised (ExcError e), c0)
    | Ok fp =>
        let '(o, req1, rest) := form_loop max_content fp req0 (stream c0) in
        let c1 := with_stream rest (with_request req1 c0) in
        match o with
        | Done fp' =>
            match fp_finalize L fp' with
            | Ok fields =>
                (Done tt, with_request (add_fields fields req1) c1)
            | Err e => (Raised (ExcError e), c1)
            end
        | Raised e => (Raised e, c1)
        | Pending => (Pending, c1)
        end
    end.

Definition decode_content (max_content : Z) : M unit :=
  s <- header_text "content-type" ;;
  match select_decoder (fst (parse_options_header L s)) with
  | JsonDecoder => decode_json
  | FormDecoder => decode_form max_content
  | NoDecoder => ret tt
  end.

(** *** Before-hooks, routing, after-hooks *)

Fixpoint run_before (hooks : list (func Request.t)) : M unit :=
  match hooks with
  | [] => ret tt
  | f :: rest =>
      r <- asyncfy CallBefore f ;;
      if Response.truthy r then raise_from_any r else run_before rest
  end.

(** [', '.join(methods)] *)
Definition join_methods (methods : methods_table) : string :=
  String.concat ", " (dict_keys methods).

(** [Response(405)] with [response.headers['allow']] set. *)
Definition method_not_allowed (methods : methods_table) : result Response.t :=
  match Response.__init__ 405 MultiDict.MNone [] "" with
  | Ok r =>
      Ok (Response.mk (Response.status r) (Response.description r)
            (MultiDict.__setitem__ "allow" (VStr (join_methods methods))
               (Response.headers r))
            (Response.cookies r) (Response.body r))
  | Err e => Err e
  end.

(** The loop [for route, methods in self._routes.items()] with its
    [else] branch. *)
Fixpoint match_routes (rs : list (pattern L * methods_table)) : M Response.t :=
  match rs with
  | [] => lift (of_result (Response.__init__ 404 MultiDict.MNone [] ""))
  | (p, methods) :: rest =>
      fun c =>
        match fullmatch L p (Request.path (request c)) with
        | Some groups =>
            let c' := with_request (Request.set_params groups (request c)) c in
            match dict_get (Request.method (request c')) methods with
            | Some f =>
                (r <- asyncfy CallHandler f ;;
                 lift (of_result (Response.from_any (json_dumps L) r))) c'
            | None => (of_result (method_not_allowed methods), c')
            end
        | None => match_routes rest c
        end
  end.

(** Before the startup event the keys are strings, which have no
    [fullmatch]. *)
Definition dispatch (rt : routes) : M Response.t :=
  match rt with
  | Compiled rs => match_routes rs
  | Uncompiled [] => lift (of_result (Response.__init__ 404 MultiDict.MNone [] ""))
  | Uncompiled (_ :: _) =>
      lift (Raised (ExcError (AttributeError "'str' object has no attribute 'fullmatch'")))
  end.

Fixpoint run_after (hooks : list (func (Request.t * Response.t)))
    (resp : Response.t) : M Response.t :=
  match hooks with
  | [] => ret resp
  | f :: rest =>
      ar <- asyncfy_after f resp ;;
      if Response.truthy (fst ar) then raise_from_any (fst ar)
      else run_after rest (snd ar)
  end.

(** The body of the outer [try] (headers to routing), with its
    [except Response as early_response]. *)
Definition process (app : App) (raw_headers : list (string * string))
  : M Response.t :=
  try_except_Response
    (parse_headers raw_headers ;;;
     load_cookies ;;;
     decode_content (_max_content app) ;;;
     run_before (_before app) ;;;
     dispatch (_routes app))
    (fun early_response => ret early_response).

(** The second [try]: the after-hooks, with
    [except Response as late_response]. *)
Definition finish (app : App) (resp : Response.t) : M Response.t :=
  try_except_Response (run_after (_after app) resp)
                      (fun late_response => ret late_response).

(** Hooks and routing on a request whose content is decoded. *)
Definition serve (app : App) : M Response.t :=
  resp <- try_except_Response
            (run_before (_before app) ;;; dispatch (_routes app))
            (fun early_response => ret early_response) ;;
  finish app resp.

(** [Request(method=..., path=..., args=parse_qsl(unquote(...)), state=...)] *)
Definition new_request (sc : scope) : result Request.t :=
  Request.__init__ (sc_method sc) (sc_path sc)
    (MultiDict.MSeq
       (map (fun kv => (fst kv, VStr (snd kv)))
            (parse_qsl (unquote (query_string sc)))))
    (match sc_state sc with Some s => s | None => [] end).

(** The http branch of [App.__call__], up to the response that is then
    serialised: the response (or what escapes), the world and the calls
    made. *)
Definition http (app : App) (sc : scope) (events : list event) (w : W)
  : outcome Response.t * W * list call :=
  match new_request sc with
  | Err e => (Raised (ExcError e), w, [])
  | Ok req =>
      let '(o, c) :=
        (resp <- process app (sc_headers sc) ;; finish app resp)
          (mkCtx req events w []) in
      (o, world c, trace c)
  end.

(** *** Lifespan *)

Inductive loop_state : Type :=
| Stopped     (* [break] *)
| Waiting.    (* suspended in [await receive()] or in a hook *)

Record lifespan_result : Type := mkLifespan {
  ls_app : App;
  ls_state : pydict value;
  ls_world : W;
  ls_trace : list call;
  ls_sent : list message;
  ls_loop : loop_state
}.

(** [for func in hooks: await asyncfy(func, scope['state'])] *)
Fixpoint run_hooks (tag : string -> call) (hooks : list (func (pydict value)))
    (state : pydict value) (w : W) (tr : list call)
  : outcome unit * pydict value * W * list call :=
  match hooks with
  | [] => (Done tt, state, w, tr)
  | f :: rest =>
      let '(o, state', w') := fbody f state w in
      let tr' := tr ++ [tag (fname f)] in
      match o with
      | Done _ => run_hooks tag rest state' w' tr'
      | Raised e => (Raised e, state', w', tr')
      | Pending => (Pending, state', w', tr')
      end
  end.

(** [{re.compile(k): v for k, v in self._routes.items()}] *)
Fixpoint compile_table (r : pydict methods_table)
  : result (list (pattern L * methods_table)) :=
  match r with
  | [] => Ok []
  | (k, v) :: r' =>
      match re_compile L k with
      | Err e => Err e
      | Ok p =>
          match compile_table r' with
          | Ok ps => Ok ((p, v) :: ps)
          | Err e => Err e
          end
      end
  end.

(** Compiling a compiled pattern gives the pattern back. *)
Definition compile_routes (rt : routes) : result routes :=
  match rt with
  | Uncompiled r =>
      match compile_table r with
      | Ok ps => Ok (Compiled ps)
      | Err e => Err e
      end
  | Compiled ps => Ok (Compiled ps)
  end.

(** [f'{type(e).__name__}: {e}'] *)
Definition failure_text (e : exn) : string :=
  exn_name e ++ ": " ++ exn_str e.

Definition is_compiled (rt : routes) : bool :=
  match rt with
  | Compiled _ => true
  | Uncompiled _ => false
  end.

(** The lifespan branch of [App.__call__]: the loop [while True] over
    the lifespan events still to come, given by their types. *)
Fixpoint lifespan (app : App) (events : list string) (state : pydict value)
    (w : W) (tr : list call) (sent : list message) : lifespan_result :=
  match events with
  | [] => mkLifespan app state w tr sent Waiting
  | ty :: rest =>
      if String.eqb ty "lifespan.startup" then
        match run_hooks CallStartup (_startup app) state w tr with
        | (Done _, state', w', tr') =>
            match compile_routes (_routes app) with
            | Ok rt =>
                lifespan (set_routes rt app) rest state' w' tr'
                  (sent ++ [mkMessage "lifespan.startup.complete" None])
            | Err e =>
                mkLifespan app state' w' tr'
                  (sent ++ [mkMessage "lifespan.startup.failed"
                              (Some (failure_text (ExcError e)))])
                  Stopped
            end
        | (Raised e, state', w', tr') =>
            mkLifespan app state' w' tr'
              (sent ++ [mkMessage "lifespan.startup.failed"
                          (Some (failure_text e))])
              Stopped
        | (Pending, state', w', tr') =>
            mkLifespan app state' w' tr' sent Waiting
        end
      else if String.eqb ty "lifespan.shutdown" then
        match run_hooks CallShutdown (_shutdown app) state w tr with
        | (Done _, state', w', tr') =>
            mkLifespan app state' w' tr'
              (sent ++ [mkMessage "lifespan.shutdown.complete" None]) Stopped
        | (Raised e, state', w', tr') =>
            mkLifespan app state' w' tr'
              (sent ++ [mkMessage "lifespan.shutdown.failed"
                          (Some (failure_text e))])
              Stopped
        | (Pending, state', w', tr') =>
            mkLifespan app state' w' tr' sent Waiting
        end
      else lifespan app rest state w tr sent
  end.

End Application.

(** ** Vocabulary of the statements *)

(** A sequence of [m[k] = v] operations, applied in order. *)
Definition set_all (ops : list (string * value)) (m : MultiDict.t) : MultiDict.t :=
  fold_left (fun m kv => MultiDict.__setitem__ (fst kv) (snd kv) m) ops m.

(** The values set for [k], in the order of the operations. *)
Definition values_set (k : string) (ops : list (string * value)) : list value :=
  map snd (filter (fun kv => String.eqb k (fst kv)) ops).

(** Keys are unique: the invariant of a dict. *)
Definition unique_keys {V : Type} (d : pydict V) : Prop := NoDup (dict_keys d).

(** The calls that a list of before-hooks, or after-hooks, makes when
    every hook is called. *)
Definition before_calls {W : Type} (hooks : list (func W Request.t)) : list call :=
  map (fun f => CallBefore (fname f)) hooks.

Definition after_calls {W : Type} (hooks : list (func W (Request.t * Response.t)))
  : list call :=
  map (fun f => CallAfter (fname f)) hooks.

(** [b''.join(chunks)] and the bytes that a sequence of events carries. *)
Definition join_bytes (chunks : list string) : string :=
  fold_right String.append "" chunks.

Definition received (events : list event) : string :=
  join_bytes (map ev_body events).

(** [k in m] *)
Definition contains (k : string) (m : MultiDict.t) : bool :=
  existsb (String.eqb k) (MultiDict.keys m).

(** ** A small instance for the examples

    Patterns without metacharacters (such a pattern matches exactly
    itself), text that decodes to itself, no cookies, a content type
    without parameters, and a form parser that accepts every chunk and
    reports no field. *)
Definition example_lib : Lib :=
  {| pattern := string;
     re_compile := fun s => Ok s;
     fullmatch := fun p s => if String.eqb p s then Some [] else None;
     json_dumps := fun _ => Ok "{}";
     decode_utf8 := fun s => Some s;
     normalize_NFC := fun s => s;
     cookie_load := fun _ => Some [];
     parse_options_header := fun s => (s, []);
     ijson_items := fun _ evs => (Done [], []);
     form_parser := unit;
     create_form_parser := fun _ => Ok tt;
     fp_write := fun fp _ => Ok (fp, []);
     fp_finalize := fun _ => Ok [] |}.

(** A function that ignores its arguments and returns [v]. *)
Definition returning {Args : Type} (name : string) (v : value) : func unit Args :=
  mkFunc name (fun a w => (Done (Response.AVal v), a, w)).

(** A function that raises [e]. *)
Definition raising {Args : Type} (name : string) (e : exn) : func unit Args :=
  mkFunc name (fun a w => (Raised e, a, w)).

(** [@app.get('/')] on a handler returning ['hello']; [before] and [after]
    are the registered hooks. *)
Definition example_app (before : list (func unit Request.t))
    (after : list (func unit (Request.t * Response.t))) (max_content : Z)
  : App unit example_lib :=
  mkApp (Compiled example_lib
           (route "/" ["GET"; "POST"] (returning "root" (VStr "hello")) []))
        [] [] before after max_content.

Definition example_scope (method : string) (content_type : string) : scope :=
  mkScope method "/" "" [("content-type", content_type)] None.

Definition example_request (method path : string) : Request.t :=
  Request.mk method path [] [] [] [] "" (VDict []) [] [].

(** ** Further operations of the module *)

(** [MultiDict.values()]: the last value of every key. *)
Definition MultiDict_values (m : MultiDict.t) : result (list value) :=
  match MultiDict.items m with
  | Ok kvs => Ok (map snd kvs)
  | Err e => Err e
  end.

(** The distinct keys of a sequence, in the order of their first
    occurrence. *)
Definition first_occurrences (keys : list string) : list string :=
  fold_left (fun acc k => if existsb (String.eqb k) acc then acc else acc ++ [k])
            keys [].

(** [self._routes.update({prefix + k: v for k, v in app._routes.items()})]
    in [App.mount], on tables keyed by path strings. *)
Definition mount_routes {W : Type} (prefix : string)
    (other table : pydict (methods_table W)) : pydict (methods_table W) :=
  fold_left (fun t kv => dict_set (fst kv) (snd kv) t)
            (dict_of_pairs (map (fun kv => ((prefix ++ fst kv)%string, snd kv)) other))
            table.

(** [App.mount(app, prefix)] before the startup event, when both route
    tables are keyed by path strings.  ([None]: a table is already
    compiled; its keys are patterns, which this operation would mix with
    strings.) *)
Definition mount {W : Type} {L : Lib} (self other : App W L) (prefix : string)
  : option (App W L) :=
  match _routes self, _routes other with
  | Uncompiled _ t, Uncompiled _ o =>
      Some (mkApp (Uncompiled L (mount_routes prefix o t))
                  (_startup self ++ _startup other)
                  (_shutdown self ++ _shutdown other)
                  (_before self ++ _before other)
                  (_after self ++ _after other)
                  (Z.max (_max_content self) (_max_content other)))
  | _, _ => None
  end.

(** [header.split(': ', maxsplit=1)[1]]: what follows the first [": "];
    [IndexError] when there is none. *)
Fixpoint after_colon_space (s : string) : result string :=
  match s with
  | EmptyString => Err (IndexError "list index out of range")
  | String c s' =>
      match s' with
      | String d rest =>
          if Ascii.eqb c ":" && Ascii.eqb d " " then Ok rest
          else after_colon_space s'
      | EmptyString => after_colon_space s'
      end
  end.

Fixpoint all_ok {A B : Type} (f : A -> result B) (l : list A) : result (list B) :=
  match l with
  | [] => Ok []
  | a :: l' =>
      match f a with
      | Err e => Err e
      | Ok b =>
          match all_ok f l' with
          | Ok bs => Ok (b :: bs)
          | Err e => Err e
          end
      end
  end.

(** The frames sent for a response. *)
Inductive frame : Type :=
| ResponseStart (status : Z) (headers : list (string * string))
| ResponseBody (body : string).

Section Serialize.
(** [str(v)] of a header value. *)
Variable str_value : value -> string.
(** [response.cookies.output().splitlines()] of [http.cookies]. *)
Variable cookies_output : pydict string -> list string.

(** The two [response.headers._update] calls at the end of
    [App.__call__]. *)
Definition final_headers (r : Response.t) : result MultiDict.t :=
  let h :=
    MultiDict._update
      [("content-length", [VInt (Z.of_nat (String.length (Response.body r)))])]
      (Response.headers r) in
  match Response.cookies r with
  | [] => Ok h
  | _ :: _ =>
      match all_ok after_colon_space (cookies_output (Response.cookies r)) with
      | Ok vs => Ok (MultiDict._update [("set-cookie", map VStr vs)] h)
      | Err e => Err e
      end
  end.

(** [[[str(k).lower().encode(), str(v).encode()]
      for k, l in response.headers._items() for v in l]] *)
Definition header_lines (h : MultiDict.t) : list (string * string) :=
  flat_map (fun kl => map (fun v => (lower (fst kl), str_value v)) (snd kl))
           (MultiDict._items h).

(** The two [send] calls: the start frame, then the body frame. *)
Definition serialize (r : Response.t) : result (list frame) :=
  match final_headers r with
  | Ok h => Ok [ResponseStart (Response.status r) (header_lines h);
                ResponseBody (Response.body r)]
  | Err e => Err e
  end.
End Serialize.

(** The state of a [Headers] built from pairs, seen from the map [m] of
    the values per name: under each name a one-element sequence whose
    element is the list of the values. *)
Definition nested (m : MultiDict.t) : Headers.t :=
  map (fun kl => (fst kl, [VList (snd kl)])) m.

(** The pairs with their names in lower case. *)
Definition lower_names (l : list (string * value)) : list (string * value) :=
  map (fun kv => (lower (fst kv), snd kv)) l.



(** A route table of two paths for the examples. *)
Definition example_table : pydict (methods_table unit) :=
  route "/items" ["POST"] (returning "create" (VInt 201))
    (route "/items" ["GET"] (returning "list" (VStr "[]"))
       (route "/" ["GET"] (returning "root" (VStr "hello")) [])).

(** * Theorems *)

(** ** Python dict *)

Section PyDictFacts.
Variable V : Type.
Implicit Types (d : pydict V) (k : string) (v : V).

Lemma dict_get_set_same k v d : dict_get k (dict_set k v d) = Some v.
Proof.
  induction d as [|[k' v'] d IH]; simpl.
  - now rewrite String.eqb_refl.
  - destruct (String.eqb k k') eqn:E; simpl; rewrite E; auto.
Qed.

Lemma dict_get_set_other k k' v d :
  String.eqb k k' = false -> dict_get k (dict_set k' v d) = dict_get k d.
Proof.
  intros Hne. induction d as [|[k2 v2] d IH]; simpl.
  - now rewrite Hne.
  - destruct (String.eqb k' k2) eqn:E; simpl.
    + apply String.eqb_eq in E. subst k2. now rewrite Hne.
    + now rewrite IH.
Qed.

Lemma dict_keys_set_present k v d x :
  dict_get k d = Some x -> dict_keys (dict_set k v d) = dict_keys d.
Proof.
  induction d as [|[k' v'] d IH]; simpl; [discriminate|].
  destruct (String.eqb k k') eqn:E; simpl; intros H; [reflexivity|].
  f_equal. now apply IH.
Qed.

Lemma dict_keys_set_absent k v d :
  dict_get k d = None -> dict_keys (dict_set k v d) = dict_keys d ++ [k].
Proof.
  induction d as [|[k' v'] d IH]; simpl; [reflexivity|].
  destruct (String.eqb k k') eqn:E; simpl; intros H; [discriminate|].
  f_equal. now apply IH.
Qed.

Lemma existsb_keys_get k d :
  existsb (String.eqb k) (dict_keys d)
  = match dict_get k d with Some _ => true | None => false end.
Proof.
  induction d as [|[k' v'] d IH]; simpl; [reflexivity|].
  destruct (String.eqb k k'); simpl; auto.
Qed.

Lemma dict_get_none_not_in k d : dict_get k d = None -> ~ In k (dict_keys d).
Proof.
  induction d as [|[k' v'] d IH]; simpl; [tauto|].
  destruct (String.eqb k k') eqn:E; [discriminate|].
  intros H [H1|H1].
  - subst k'. rewrite String.eqb_refl in E. discriminate.
  - now apply IH.
Qed.

Lemma not_in_dict_get_none k d : ~ In k (dict_keys d) -> dict_get k d = None.
Proof.
  induction d as [|[k' v'] d IH]; simpl; [reflexivity|].
  intros H. destruct (String.eqb k k') eqn:E.
  - apply String.eqb_eq in E. subst. tauto.
  - apply IH. tauto.
Qed.

Lemma unique_keys_set k v d : unique_keys d -> unique_keys (dict_set k v d).
Proof.
  unfold unique_keys. intros H.
  destruct (dict_get k d) as [x|] eqn:G.
  - now erewrite dict_keys_set_present by eassumption.
  - rewrite dict_keys_set_absent by assumption.
    apply NoDup_app; [assumption| repeat constructor; simpl; tauto |].
    intros a Ha [Hb|[]]. subst a.
    revert Ha. now apply dict_get_none_not_in.
Qed.

Lemma dict_get_del_same k d : unique_keys d -> dict_get k (dict_del k d) = None.
Proof.
  unfold unique_keys.
  induction d as [|[k' v'] d IH]; simpl; [reflexivity|].
  intros H. inversion H as [|? ? Hnin Hnd]; subst.
  destruct (String.eqb k k') eqn:E; simpl.
  - apply String.eqb_eq in E. subst. now apply not_in_dict_get_none.
  - rewrite E. now apply IH.
Qed.
End PyDictFacts.

(** ** MultiDict *)

Lemma setitem_get_same k v (m : MultiDict.t) :
  dict_get k (MultiDict.__setitem__ k v m)
  = Some (match dict_get k m with Some l => l | None => [] end ++ [v]).
Proof.
  unfold MultiDict.__setitem__, dict_setdefault.
  destruct (dict_get k m); apply dict_get_set_same.
Qed.

Lemma setitem_get_other k k' v (m : MultiDict.t) :
  String.eqb k k' = false ->
  dict_get k (MultiDict.__setitem__ k' v m) = dict_get k m.
Proof.
  intros Hne. unfold MultiDict.__setitem__, dict_setdefault.
  destruct (dict_get k' m);
    repeat (rewrite dict_get_set_other by assumption); reflexivity.
Qed.

Lemma setitem_unique k v (m : MultiDict.t) :
  unique_keys m -> unique_keys (MultiDict.__setitem__ k v m).
Proof.
  intros H. unfold MultiDict.__setitem__, dict_setdefault.
  destruct (dict_get k m); repeat apply unique_keys_set; assumption.
Qed.

Lemma set_all_unique ops : forall m, unique_keys m -> unique_keys (set_all ops m).
Proof.
  induction ops as [|[k v] ops IH]; simpl; intros m H; [assumption|].
  apply IH. now apply setitem_unique.
Qed.

(** What the underlying dict holds for [k] after a sequence of sets. *)
Lemma set_all_get k ops : forall m,
  dict_get k (set_all ops m)
  = match values_set k ops with
    | [] => dict_get k m
    | vs => Some (match dict_get k m with Some l => l | None => [] end ++ vs)
    end.
Proof.
  unfold values_set.
  induction ops as [|[k' v] ops IH]; simpl; intros m; [reflexivity|].
  rewrite IH. destruct (String.eqb k k') eqn:E; simpl.
  - apply String.eqb_eq in E. subst k'. rewrite setitem_get_same.
    destruct (map snd (filter _ ops)); simpl.
    + reflexivity.
    + now rewrite <- app_assoc.
  - now rewrite setitem_get_other.
Qed.

Lemma set_all_get_empty k ops :
  dict_get k (set_all ops [])
  = match values_set k ops with [] => None | vs => Some vs end.
Proof. rewrite set_all_get. simpl. now destruct (values_set k ops). Qed.

Lemma last_item_nonempty (v : value) vs d :
  last_item (v :: vs) = Ok (last (v :: vs) d).
Proof.
  unfold last_item. f_equal.
  revert v. induction vs as [|w vs IH]; intros v; [reflexivity|].
  change (last (v :: w :: vs) VNone) with (last (w :: vs) VNone).
  change (last (v :: w :: vs) d) with (last (w :: vs) d). apply IH.
Qed.

(** C4: constructing a MultiDict or a Headers from a MultiDict or a
    Headers does not succeed: [__init__] calls [mapping.itemslist()], a
    method that no class of the argument defines, so the constructor
    raises [AttributeError] before any sequence is copied. *)
Theorem C4_init_from_multidict_raises :
  forall (c : class) (m : MultiDict.t),
    MultiDict.__init__ (MultiDict.MMulti c m)
    = Err (AttributeError "object has no attribute 'itemslist'")
    /\ Headers.__init__ (MultiDict.MMulti c m)
       = Err (AttributeError "object has no attribute 'itemslist'").
Proof.
  intros c m. unfold MultiDict.__init__, Headers.__init__, MultiDict.itemslist.
  destruct c; split; reflexivity.
Qed.

(** C5 as stated fails: on a map in which [k] was never set, the
    all-values view [_get(k)] is the one-element list [[None]], not an
    empty one. *)
Lemma C5_all_values_of_absent_key_not_empty :
  MultiDict._get "k" MultiDict.default_all (set_all [] []) = [VNone]
  /\ length (MultiDict._get "k" MultiDict.default_all (set_all [] []))
     <> length (values_set "k" []).
Proof. split; [reflexivity | discriminate]. Qed.

(** C5 (amended): after any sequence of sets on an empty MultiDict,
    [get(k, default)] is the value set last for [k], or [default] if [k]
    was never set; [_get(k, default)] is the sequence of all values set
    for [k], as long as the number of sets of [k], or the caller's
    [default] sequence if [k] was never set ([[None]] when the caller
    gives none); [pop(k)] removes the last value and keeps the key while
    more than one value remains, otherwise removes the key, which is then
    no longer iterated over. *)
Theorem C5_set_get_pop :
  forall (ops : list (string * value)) (k : string) (default : value)
         (default_seq : list value),
    let m := set_all ops [] in
    let vs := values_set k ops in
    MultiDict.get k default m = Ok (last vs default)
    /\ MultiDict._get k default_seq m
       = match vs with [] => default_seq | _ => vs end
    /\ (contains k m = true -> length (MultiDict._get k default_seq m) = length vs)
    /\ MultiDict._get k MultiDict.default_all m
       = match vs with [] => [VNone] | _ => vs end
    /\ MultiDict.pop k default m
       = (if (1 <? length vs)%nat
          then (last vs VNone, dict_set k (removelast vs) m)
          else match vs with
               | [] => (default, m)
               | _ => (VList vs, dict_del k m)
               end)
    /\ contains k (snd (MultiDict.pop k default m)) = (1 <? length vs)%nat
    /\ MultiDict._get k [] (snd (MultiDict.pop k default m))
       = (if (1 <? length vs)%nat then removelast vs else []).
Proof.
  intros ops k default default_seq m vs.
  assert (G : dict_get k m = match vs with [] => None | _ => Some vs end).
  { subst m vs. rewrite set_all_get_empty. now destruct (values_set k ops). }
  assert (U : unique_keys m)
    by (apply set_all_unique; constructor).
  assert (P : MultiDict.pop k default m
       = (if (1 <? length vs)%nat
          then (last vs VNone, dict_set k (removelast vs) m)
          else match vs with
               | [] => (default, m)
               | _ => (VList vs, dict_del k m)
               end)).
  { unfold MultiDict.pop. rewrite G. destruct vs as [|v vs']; [reflexivity|].
    destruct (1 <? length (v :: vs'))%nat; reflexivity. }
  repeat split.
  - unfold MultiDict.get. rewrite G. destruct vs as [|v vs']; [reflexivity|].
    apply last_item_nonempty.
  - unfold MultiDict._get. rewrite G. now destruct vs.
  - unfold contains, MultiDict.keys, MultiDict._get.
    rewrite existsb_keys_get, G. destruct vs; [discriminate|reflexivity].
  - unfold MultiDict._get. rewrite G. now destruct vs.
  - exact P.
  - rewrite P. unfold contains, MultiDict.keys.
    rewrite existsb_keys_get.
    destruct (1 <? length vs)%nat eqn:E; simpl.
    + now rewrite dict_get_set_same.
    + destruct vs; simpl.
      * now rewrite G.
      * now rewrite dict_get_del_same.
  - rewrite P. unfold MultiDict._get.
    destruct (1 <? length vs)%nat eqn:E; simpl.
    + now rewrite dict_get_set_same.
    + destruct vs; simpl.
      * now rewrite G.
      * now rewrite dict_get_del_same.
Qed.

(** The theorem at a concrete sequence of sets. *)
Lemma C5_set_get_pop_witness :
  contains "a" (set_all [("a", VInt 1); ("b", VInt 2); ("a", VInt 3)] []) = true
  /\ length (MultiDict._get "a" [] (set_all [("a", VInt 1); ("b", VInt 2); ("a", VInt 3)] []))
     = length (values_set "a" [("a", VInt 1); ("b", VInt 2); ("a", VInt 3)]).
Proof.
  split; [reflexivity|].
  apply (C5_set_get_pop [("a", VInt 1); ("b", VInt 2); ("a", VInt 3)] "a" VNone []).
  reflexivity.
Defined.

(** ** Response coercion *)

Lemma Response_init_plain (st : Z) (b : string) :
  Response.__init__ st MultiDict.MNone [] b
  = Ok {| Response.status := st;
          Response.description :=
            match HTTPStatus_phrase st with Some p => p | None => "" end;
          Response.headers := [("content-type", [VStr "text/html; charset=utf-8"])];
          Response.cookies := [];
          Response.body :=
            if Response.is_empty b && Response.is_error_status st
            then match HTTPStatus_phrase st with Some p => p | None => "" end
            else b |}.
Proof. reflexivity. Qed.

(** C8: a handler that returns the integer 799, which has no status
    phrase, gets no Response with status 799: [from_any] evaluates
    [HTTPStatus(799).phrase] unguarded and raises [ValueError], whereas
    [Response(799)] itself, whose constructor catches that error, is
    constructed with an empty description. *)
Theorem C8_nonstandard_integer_raises :
  Response.from_any (json_dumps example_lib) (Response.AVal (VInt 799))
  = Err (ValueError "is not a valid HTTPStatus")
  /\ exists r, Response.__init__ 799 MultiDict.MNone [] "" = Ok r
               /\ Response.status r = 799%Z
               /\ Response.description r = "".
Proof.
  split; [reflexivity|].
  eexists. split; [reflexivity|]. split; reflexivity.
Qed.

(** The other inputs of [from_any] are coerced as the specification
    lists: an integer that is a standard status code gives a Response
    with that status and the status phrase as body;
    a string into status 200 with the string's bytes as body; bytes into
    status 200 with that body; a mapping that [json.dumps] serialises into
    status 200 with content type [application/json] and the serialisation
    as body; a Response into itself; [None] into status 204 with an empty
    body; any other value (a list, an object of another class, and also a
    boolean) raises. *)
Lemma from_any_coercion :
  forall dumps : pydict value -> result string,
    (forall n p, HTTPStatus_phrase n = Some p ->
       exists r, Response.from_any dumps (Response.AVal (VInt n)) = Ok r
                 /\ Response.status r = n /\ Response.body r = p)
    /\ (forall s, exists r, Response.from_any dumps (Response.AVal (VStr s)) = Ok r
                            /\ Response.status r = 200%Z /\ Response.body r = s)
    /\ (forall b, exists r, Response.from_any dumps (Response.AVal (VBytes b)) = Ok r
                            /\ Response.status r = 200%Z /\ Response.body r = b)
    /\ (forall d s, dumps d = Ok s ->
          exists r, Response.from_any dumps (Response.AVal (VDict d)) = Ok r
                    /\ Response.status r = 200%Z /\ Response.body r = s
                    /\ MultiDict.get "content-type" VNone (Response.headers r)
                       = Ok (VStr "application/json"))
    /\ (forall r, Response.from_any dumps (Response.AResp r) = Ok r)
    /\ (exists r, Response.from_any dumps (Response.AVal VNone) = Ok r
                  /\ Response.status r = 204%Z /\ Response.body r = "")
    /\ (forall l, Response.from_any dumps (Response.AVal (VList l)) = Err (TypeError ""))
    /\ (forall c t, Response.from_any dumps (Response.AVal (VOther c t))
                    = Err (TypeError ""))
    /\ (forall b, Response.from_any dumps (Response.AVal (VBool b))
                  = Err (ValueError "is not a valid HTTPStatus")).
Proof.
  intros dumps. split; [|repeat split].
  - intros n p H. simpl. unfold Response.from_int.
    rewrite H, Response_init_plain.
    eexists. split; [reflexivity|]. simpl. split; [reflexivity|].
    rewrite H. now destruct (Response.is_empty p && Response.is_error_status n).
  - intros s. simpl. rewrite Response_init_plain. eexists. split; [reflexivity|].
    simpl. split; [reflexivity|]. now destruct s.
  - intros s. simpl. rewrite Response_init_plain. eexists. split; [reflexivity|].
    simpl. split; [reflexivity|]. now destruct s.
  - intros d s H. simpl. rewrite H. eexists. split; [reflexivity|].
    simpl. repeat split. now destruct s.
  - eexists. split; [reflexivity|]. split; reflexivity.
  - intros [|]; reflexivity.
Qed.

(** The lemma at the integer 404 and at a mapping that serialises. *)
Lemma from_any_coercion_example :
  (exists r, Response.from_any (json_dumps example_lib) (Response.AVal (VInt 404)) = Ok r
             /\ Response.status r = 404%Z /\ Response.body r = "Not Found")
  /\ (exists r, Response.from_any (json_dumps example_lib)
                  (Response.AVal (VDict [])) = Ok r
                /\ Response.status r = 200%Z /\ Response.body r = "{}"
                /\ MultiDict.get "content-type" VNone (Response.headers r)
                   = Ok (VStr "application/json")).
Proof.
  destruct (from_any_coercion (json_dumps example_lib))
    as (Hint & _ & _ & Hdict & _).
  split.
  - apply (Hint 404%Z "Not Found"). reflexivity.
  - apply (Hdict [] "{}"). reflexivity.
Defined.

(** ** Content-type selection *)

Lemma before_plus_json_suffix (suffix : string) :
  before_plus ("application/json" ++ "+" ++ suffix) = "application/json".
Proof. reflexivity. Qed.

(** C3 as stated fails on its own example: [application/ld+json] does not
    select the JSON decoder. *)
Lemma C3_ld_json_not_json_decoder :
  select_decoder "application/ld+json" <> JsonDecoder.
Proof. discriminate. Qed.

(** C3 (amended): a parsed content type that is [application/json], alone
    or followed by [+] and any suffix, selects the JSON decoder: what
    follows the first [+] is ignored, and the JSON decoder is selected
    exactly when what precedes it is [application/json]. *)
Theorem C3_json_decoder_selection :
  forall suffix : string,
    select_decoder "application/json" = JsonDecoder
    /\ select_decoder ("application/json" ++ "+" ++ suffix) = JsonDecoder
    /\ forall ct,
         String.eqb (before_plus ct) "application/json"
         = match select_decoder ct with JsonDecoder => true | _ => false end.
Proof.
  intros suffix. split; [reflexivity|]. split; [reflexivity|].
  intros ct. unfold select_decoder.
  destruct (String.eqb (before_plus ct) "application/json"); [reflexivity|].
  now destruct (_ || _).
Qed.

(** ** Query arguments *)

Lemma MultiDict_init_seq (l : list (string * value)) :
  MultiDict.__init__ (MultiDict.MSeq l)
  = Ok (fold_left (fun m kv => MultiDict.append_to (fst kv) (snd kv) m) l []).
Proof. reflexivity. Qed.


(** ** Body *)

(** C2: with the default [n = -1], [read] returns the buffer and keeps
    it: on a body delivered as the single chunk ["a"], every call returns
    ["a"] again, no call returns an empty result, and the collected reads
    never end. *)
Theorem C2_read_all_keeps_the_buffer :
  let b1 := {| Body.buffer := "a"; Body.finished := true |} in
  Body.read (-1) Body.__init__ [mkEvent "a" false] = (Done "a", b1, [])
  /\ Body.read (-1) b1 [] = (Done "a", b1, [])
  /\ forall fuel,
       Body.read_until_empty fuel (-1) Body.__init__ [mkEvent "a" false] = None.
Proof.
  intros b1.
  assert (R0 : Body.read (-1) Body.__init__ [mkEvent "a" false] = (Done "a", b1, []))
    by reflexivity.
  assert (R1 : Body.read (-1) b1 [] = (Done "a", b1, [])) by reflexivity.
  split; [exact R0|]. split; [exact R1|].
  assert (H : forall fuel, Body.read_until_empty fuel (-1) b1 [] = None).
  { induction fuel as [|fuel IH]; [reflexivity|].
    cbn [Body.read_until_empty]. rewrite R1. cbn [Response.is_empty].
    now rewrite IH. }
  intros [|fuel]; [reflexivity|].
  cbn [Body.read_until_empty]. rewrite R0. cbn [Response.is_empty].
  now rewrite H.
Qed.

(** *** Reads with a positive size

    With [n > 0] the reads do reconstruct the body, for every chunking
    whose last event carries data. *)

Lemma string_append_assoc (a b c : string) : ((a ++ b) ++ c = a ++ (b ++ c))%string.
Proof. induction a as [|x a IH]; simpl; [reflexivity | now rewrite IH]. Qed.

Lemma string_append_nil_r (a : string) : (a ++ "")%string = a.
Proof. induction a as [|x a IH]; simpl; [reflexivity | now rewrite IH]. Qed.

Lemma string_length_append (a b : string) :
  String.length (a ++ b) = String.length a + String.length b.
Proof. induction a as [|x a IH]; simpl; [reflexivity | now rewrite IH]. Qed.

Lemma take_drop (s : string) : forall m, (Body.take m s ++ Body.drop m s)%string = s.
Proof.
  induction s as [|x s IH]; intros [|m]; simpl; try reflexivity.
  now rewrite IH.
Qed.

Lemma drop_length (s : string) :
  forall m, String.length (Body.drop m s) = String.length s - m.
Proof. induction s as [|x s IH]; intros [|m]; simpl; auto. Qed.

Lemma take_length (s : string) : forall m, String.length (Body.take m s) <= m.
Proof.
  induction s as [|x s IH]; intros [|m]; simpl; try lia.
  specialize (IH m). lia.
Qed.

Lemma received_app (a b : list event) :
  received (a ++ b) = (received a ++ received b)%string.
Proof.
  unfold received, join_bytes. induction a as [|ev a IH]; simpl; [reflexivity|].
  now rewrite IH, string_append_assoc.
Qed.

Lemma fill_buffered (x : ascii) (buf : string) (fin : bool) (s : list event) :
  Body.fill (Body.mk (String x buf) fin) s = (Done tt, Body.mk (String x buf) fin, s).
Proof. destruct s; reflexivity. Qed.

Section ReadPositive.
Variable n : Z.
Hypothesis Hn : (0 < n)%Z.

Lemma read_buffered (x : ascii) (buf : string) (fin : bool) (s : list event) :
  Body.read n (Body.mk (String x buf) fin) s
  = (Done (Body.take (Z.to_nat n) (String x buf)),
     Body.mk (Body.drop (Z.to_nat n) (String x buf)) fin, s).
Proof.
  unfold Body.read.
  destruct (n =? 0)%Z eqn:E0; [lia|].
  destruct (n >? 0)%Z eqn:E1; [|lia].
  cbn [Body.finished]. destruct fin; [reflexivity|].
  now rewrite fill_buffered.
Qed.

Lemma read_finished_empty (s : list event) :
  Body.read n (Body.mk "" true) s = (Done "", Body.mk "" true, s).
Proof.
  unfold Body.read.
  destruct (n =? 0)%Z eqn:E0; [lia|].
  destruct (n >? 0)%Z eqn:E1; [|lia].
  simpl. now destruct (Z.to_nat n).
Qed.

Lemma take_not_empty (x : ascii) (buf : string) :
  Response.is_empty (Body.take (Z.to_nat n) (String x buf)) = false.
Proof. destruct (Z.to_nat n) eqn:E; [lia | reflexivity]. Qed.

(** Once the last event is in, the reads drain the buffer. *)
Lemma drain_finished :
  forall fuel buf s,
    String.length buf < fuel ->
    exists chunks,
      Body.read_until_empty fuel n (Body.mk buf true) s
      = Some (Done chunks, Body.mk "" true, s)
      /\ join_bytes chunks = buf
      /\ Forall (fun ch => String.length ch <= Z.to_nat n) chunks.
Proof.
  induction fuel as [|fuel IH]; intros buf s Hlen; [lia|].
  destruct buf as [|x buf].
  - cbn [Body.read_until_empty]. rewrite read_finished_empty.
    exists []. repeat split. constructor.
  - cbn [Body.read_until_empty]. rewrite read_buffered, take_not_empty.
    destruct (IH (Body.drop (Z.to_nat n) (String x buf)) s)
      as (chunks & Hr & Hj & Hall).
    { rewrite drop_length. cbn [String.length] in *. lia. }
    rewrite Hr.
    exists (Body.take (Z.to_nat n) (String x buf) :: chunks). repeat split.
    + change (join_bytes (Body.take (Z.to_nat n) (String x buf) :: chunks))
        with (Body.take (Z.to_nat n) (String x buf) ++ join_bytes chunks)%string.
      rewrite Hj. apply take_drop.
    + constructor; [apply take_length | assumption].
Qed.

(** Filling an empty buffer stops at the first event that carries data. *)
Lemma fill_empty :
  forall pre last post,
    Forall (fun ev => more_body ev = true) pre ->
    more_body last = false ->
    Response.is_empty (ev_body last) = false ->
    exists x buf fin rest,
      Body.fill (Body.mk "" false) (pre ++ last :: post)
      = (Done tt, Body.mk (String x buf) fin, rest)
      /\ ((fin = false
           /\ exists pre2, rest = pre2 ++ last :: post
                           /\ Forall (fun ev => more_body ev = true) pre2
                           /\ received pre = (String x buf ++ received pre2)%string)
          \/ (fin = true /\ rest = post /\ received pre = ""
              /\ ev_body last = String x buf)).
Proof.
  induction pre as [|ev pre IH]; intros last post Hpre Hlast Hne.
  - destruct (ev_body last) as [|x buf] eqn:Eb; [discriminate|].
    exists x, buf, true, post. split.
    + simpl. rewrite Eb, Hlast. simpl. apply fill_buffered.
    + right. auto.
  - inversion Hpre as [|? ? Hev Hpre']; subst.
    destruct (ev_body ev) as [|x buf] eqn:Eb.
    + destruct (IH last post Hpre' Hlast Hne) as (x & buf & fin & rest & Hf & Hcase).
      exists x, buf, fin, rest. split.
      * simpl. rewrite Eb, Hev. exact Hf.
      * destruct Hcase as [(Hfin & pre2 & Hrest & Hall & Hrec)|(Hfin & Hrest & Hrec & Hl)].
        -- left. split; [assumption|]. exists pre2. repeat split; try assumption.
           unfold received, join_bytes in *. simpl. rewrite Eb. exact Hrec.
        -- right. repeat split; try assumption.
           unfold received, join_bytes in *. simpl. rewrite Eb. exact Hrec.
    + exists x, buf, false, (pre ++ last :: post). split.
      * simpl. rewrite Eb, Hev. simpl. apply fill_buffered.
      * left. split; [reflexivity|]. exists pre. repeat split; try assumption.
        unfold received, join_bytes. simpl. now rewrite Eb.
Qed.

(** Chunking invariance for [n > 0]: whatever the chunk boundaries, when
    the last event carries data, the successive [read(n)] calls end (with
    enough fuel for one read per byte), return at most [n] bytes each, and
    reconstruct the bytes received. *)
Lemma read_positive_reconstructs :
  forall fuel buf pre last post,
    Forall (fun ev => more_body ev = true) pre ->
    more_body last = false ->
    Response.is_empty (ev_body last) = false ->
    String.length buf + String.length (received (pre ++ [last])) + 1 < fuel ->
    exists chunks,
      Body.read_until_empty fuel n (Body.mk buf false) (pre ++ last :: post)
      = Some (Done chunks, Body.mk "" true, post)
      /\ join_bytes chunks = (buf ++ received (pre ++ [last]))%string
      /\ Forall (fun ch => String.length ch <= Z.to_nat n) chunks.
Proof.
  induction fuel as [|fuel IH]; intros buf pre last post Hpre Hlast Hne Hlen; [lia|].
  destruct buf as [|x buf].
  - destruct (@fill_empty pre last post Hpre Hlast Hne)
      as (x & buf & fin & rest & Hf & Hcase).
    assert (R : Body.read n (Body.mk "" false) (pre ++ last :: post)
                = (Done (Body.take (Z.to_nat n) (String x buf)),
                   Body.mk (Body.drop (Z.to_nat n) (String x buf)) fin, rest)).
    { unfold Body.read.
      destruct (n =? 0)%Z eqn:E0; [lia|].
      destruct (n >? 0)%Z eqn:E1; [|lia].
      cbn [Body.finished]. rewrite Hf. reflexivity. }
    cbn [Body.read_until_empty]. rewrite R, take_not_empty.
    pose proof (drop_length (String x buf) (Z.to_nat n)) as Hd.
    rewrite received_app in Hlen |- *.
    destruct Hcase as [(Hfin & pre2 & Hrest & Hall & Hrec)|(Hfin & Hrest & Hrec & Hl)];
      subst fin rest.
    + destruct (IH (Body.drop (Z.to_nat n) (String x buf)) pre2 last post
                   Hall Hlast Hne) as (chunks & Hr & Hj & Hch).
      { rewrite received_app, Hd. rewrite Hrec in Hlen.
        rewrite !string_length_append in *. cbn [String.length] in *. lia. }
      rewrite Hr.
      exists (Body.take (Z.to_nat n) (String x buf) :: chunks). repeat split.
      * change (join_bytes (Body.take (Z.to_nat n) (String x buf) :: chunks))
          with (Body.take (Z.to_nat n) (String x buf) ++ join_bytes chunks)%string.
        rewrite Hj, received_app, Hrec.
        rewrite <- !string_append_assoc. now rewrite take_drop.
      * constructor; [apply take_length | assumption].
    + destruct (@drain_finished fuel (Body.drop (Z.to_nat n) (String x buf)) post)
        as (chunks & Hr & Hj & Hch).
      { rewrite Hd. rewrite Hrec in Hlen. unfold received at 1 in Hlen.
        simpl in Hlen. rewrite string_append_nil_r, Hl in Hlen. cbn [String.length] in *. lia. }
      rewrite Hr.
      exists (Body.take (Z.to_nat n) (String x buf) :: chunks). repeat split.
      * change (join_bytes (Body.take (Z.to_nat n) (String x buf) :: chunks))
          with (Body.take (Z.to_nat n) (String x buf) ++ join_bytes chunks)%string.
        rewrite Hj, Hrec. unfold received, join_bytes. simpl.
        rewrite string_append_nil_r, Hl. apply take_drop.
      * constructor; [apply take_length | assumption].
  - cbn [Body.read_until_empty]. rewrite read_buffered, take_not_empty.
    pose proof (drop_length (String x buf) (Z.to_nat n)) as Hd.
    destruct (IH (Body.drop (Z.to_nat n) (String x buf)) pre last post
                 Hpre Hlast Hne) as (chunks & Hr & Hj & Hch).
    { rewrite Hd. cbn [String.length] in *. lia. }
    rewrite Hr.
    exists (Body.take (Z.to_nat n) (String x buf) :: chunks). repeat split.
    + change (join_bytes (Body.take (Z.to_nat n) (String x buf) :: chunks))
        with (Body.take (Z.to_nat n) (String x buf) ++ join_bytes chunks)%string.
      rewrite Hj, <- string_append_assoc. now rewrite take_drop.
    + constructor; [apply take_length | assumption].
Qed.
End ReadPositive.

(** From a fresh reader: the reads return the body. *)
Corollary read_positive_from_start :
  forall n pre last post,
    (0 < n)%Z ->
    Forall (fun ev => more_body ev = true) pre ->
    more_body last = false ->
    Response.is_empty (ev_body last) = false ->
    exists chunks,
      Body.read_until_empty (String.length (received (pre ++ [last])) + 2) n
                            Body.__init__ (pre ++ last :: post)
      = Some (Done chunks, Body.mk "" true, post)
      /\ join_bytes chunks = received (pre ++ [last])
      /\ Forall (fun ch => String.length ch <= Z.to_nat n) chunks.
Proof.
  intros n pre last post Hn Hpre Hlast Hne.
  apply (@read_positive_reconstructs n Hn _ "" pre last post Hpre Hlast Hne).
  simpl. lia.
Qed.

(** When the last event carries no data, the reader asks the transport
    for one more event after the end of the body. *)
Lemma read_after_empty_last_event :
  Body.read 1 Body.__init__ [mkEvent "" false]
  = (Pending, Body.mk "" true, []).
Proof. reflexivity. Qed.

(** ** Form decoding and the size limit *)

(** The form loop never raises a [Response], whatever the limit and the
    chunks: its size test reads [request.body], which no step of the
    pipeline assigns, and its [raise] names an unbound class. *)
Lemma form_loop_never_raises_Response (L : Lib) (max_content : Z) :
  forall events (fp : form_parser L) (req : Request.t) (r : Response.t),
    fst (fst (form_loop L max_content fp req events)) <> Raised (ExcResponse r).
Proof.
  induction events as [|ev rest IH]; intros fp req r; simpl; [discriminate|].
  destruct (fp_write L fp (ev_body ev)) as [[fp' fields]|e]; simpl;
    [|discriminate].
  destruct (_ >? _)%Z; simpl; [discriminate|].
  destruct (more_body ev); simpl; [apply IH | discriminate].
Qed.

(** With an empty [request.body] and a limit that is not negative, the
    loop does not depend on the limit. *)
Lemma form_loop_ignores_limit (L : Lib) (max1 max2 : Z) :
  (0 <= max1)%Z -> (0 <= max2)%Z ->
  forall events (fp : form_parser L) (req : Request.t),
    Request.body req = "" ->
    form_loop L max1 fp req events = form_loop L max2 fp req events.
Proof.
  intros H1 H2. induction events as [|ev rest IH]; intros fp req Hb;
    cbn [form_loop]; [reflexivity|].
  destruct (fp_write L fp (ev_body ev)) as [[fp' fields]|e]; [|reflexivity].
  assert (Hb' : Request.body (add_fields fields req) = "") by exact Hb.
  rewrite Hb'. cbn [String.length Z.of_nat].
  destruct (0 >? max1)%Z eqn:E1; [lia|].
  destruct (0 >? max2)%Z eqn:E2; [lia|].
  destruct (more_body ev); [now apply IH | reflexivity].
Qed.

(** C1: with a maximum content size of 4, a urlencoded body of 13 bytes
    delivered in three chunks is not rejected: the handler runs and the
    response has status 200, not 413; the form loop takes all three events.
    No run of the form loop ends in a 413 response; when the size test
    does fire (a negative limit), a [NameError] escapes instead. *)
Theorem C1_oversized_form_body_is_not_rejected :
  let sc := example_scope "POST" "application/x-www-form-urlencoded" in
  let chunks := [mkEvent "a=bcd" true; mkEvent "efghi" true; mkEvent "jkl" false] in
  (exists r,
      http (example_app [] [] 4) sc chunks tt = (Done r, tt, [CallHandler "root"])
      /\ Response.status r = 200%Z)
  /\ form_loop example_lib 4 tt (example_request "POST" "/") chunks
     = (Done tt, example_request "POST" "/", [])
  /\ http (example_app [] [] (-1)) sc chunks tt
     = (Raised (ExcError (NameError "name 'HTTPException' is not defined")), tt, [])
  /\ forall (L : Lib) max_content events fp req r,
       fst (fst (form_loop L max_content fp req events)) <> Raised (ExcResponse r).
Proof.
  intros sc chunks. split; [|split; [|split]].
  - eexists. split; reflexivity.
  - reflexivity.
  - reflexivity.
  - intros. apply form_loop_never_raises_Response.
Qed.

(** ** Lifespan *)

Section LifespanFacts.
Variable W : Type.
Variable L : Lib.

Lemma run_hooks_app (tag : string -> call) (pre post : list (func W (pydict value))) :
  forall state w tr,
    run_hooks tag (pre ++ post) state w tr
    = match run_hooks tag pre state w tr with
      | (Done _, state', w', tr') => run_hooks tag post state' w' tr'
      | other => other
      end.
Proof.
  induction pre as [|f pre IH]; intros state w tr; simpl; [reflexivity|].
  destruct (fbody f state w) as [[o state'] w'].
  destruct o; [apply IH | reflexivity | reflexivity].
Qed.

(** C9: when a startup hook raises during the startup event (the hooks
    registered before it having returned), the application sends one
    [lifespan.startup.failed] message carrying the error description and
    nothing else (no [lifespan.startup.complete]), leaves the loop, runs
    no later hook, and leaves the route table as it was: it is not
    compiled. *)
Theorem C9_startup_hook_failure :
  forall (app : App W L) pre h post (events : list string)
         state w tr sent state1 w1 tr1 e state2 w2,
    _startup app = pre ++ h :: post ->
    run_hooks CallStartup pre state w tr = (Done tt, state1, w1, tr1) ->
    fbody h state1 w1 = (Raised e, state2, w2) ->
    let res := lifespan app ("lifespan.startup" :: events) state w tr sent in
    ls_sent res
    = sent ++ [mkMessage "lifespan.startup.failed"
                 (Some (exn_name e ++ ": " ++ exn_str e)%string)]
    /\ ls_loop res = Stopped
    /\ ls_trace res = tr1 ++ [CallStartup (fname h)]
    /\ ls_app res = app
    /\ is_compiled (_routes (ls_app res)) = is_compiled (_routes app).
Proof.
  intros app pre h post events state w tr sent state1 w1 tr1 e state2 w2
         Hs Hpre Hh res.
  assert (R : run_hooks CallStartup (_startup app) state w tr
              = (Raised e, state2, w2, tr1 ++ [CallStartup (fname h)])).
  { rewrite Hs, run_hooks_app, Hpre. simpl. now rewrite Hh. }
  subst res. simpl. rewrite R. simpl. repeat split.
Qed.
End LifespanFacts.

(** The theorem on an application whose second startup hook raises. *)
Lemma C9_startup_hook_failure_witness :
  let app : App unit example_lib :=
    mkApp (Uncompiled example_lib [("/", [])])
          [returning "open_db" VNone;
           raising "load_config" (ExcError (ValueError "bad config"));
           returning "warm_up" VNone]
          [] [] [] 1048576 in
  let res := lifespan app ["lifespan.startup"; "lifespan.shutdown"] [] tt [] [] in
  ls_sent res = [mkMessage "lifespan.startup.failed" (Some "ValueError: bad config")]
  /\ ls_loop res = Stopped
  /\ ls_trace res = [CallStartup "open_db"; CallStartup "load_config"]
  /\ ls_app res = app
  /\ is_compiled (_routes (ls_app res)) = false.
Proof.
  intros app res.
  exact (@C9_startup_hook_failure unit example_lib app
           [returning "open_db" VNone]
           (raising "load_config" (ExcError (ValueError "bad config")))
           [returning "warm_up" VNone]
           ["lifespan.shutdown"] [] tt [] [] [] tt [CallStartup "open_db"]
           (ExcError (ValueError "bad config")) [] tt
           eq_refl eq_refl eq_refl).
Defined.

(** ** Routing *)

Section RoutingFacts.
Variable W : Type.
Variable L : Lib.
Implicit Types (rs : list (pattern L * methods_table W)) (c : ctx W).

(** Routes whose pattern does not match the path are passed over. *)
Lemma match_routes_skip rs1 rs c :
  (forall q mt, In (q, mt) rs1 ->
                fullmatch L q (Request.path (request c)) = None) ->
  match_routes L (rs1 ++ rs) c = match_routes L rs c.
Proof.
  induction rs1 as [|[q mt] rs1 IH]; intros H; simpl; [reflexivity|].
  rewrite (H q mt) by (left; reflexivity).
  apply IH. intros q' mt' Hin. apply (H q' mt'). now right.
Qed.

Lemma method_not_allowed_spec (mt : methods_table W) :
  exists r,
    method_not_allowed mt = Ok r
    /\ Response.status r = 405%Z
    /\ MultiDict._get "allow" [] (Response.headers r)
       = [VStr (String.concat ", " (dict_keys mt))].
Proof. eexists. split; [reflexivity|]. split; reflexivity. Qed.

(** C6: the routes are tried in registration order and the first whose
    pattern matches the whole path ([fullmatch]) decides: its named
    groups become the path parameters; with a handler for the request
    method the handler is called (and its result coerced), without one
    the response is 405 with an [Allow] header listing the methods of
    that route in registration order.  When no pattern matches, the
    response is 404. *)
Theorem C6_first_full_match_wins :
  forall rs c,
    let path := Request.path (request c) in
    let method := Request.method (request c) in
    ((forall q mt, In (q, mt) rs -> fullmatch L q path = None) ->
     exists r, dispatch (Compiled L rs) c = (Done r, c)
               /\ Response.status r = 404%Z)
    /\ (forall rs1 p mt rs2 groups,
           rs = rs1 ++ (p, mt) :: rs2 ->
           (forall q mt', In (q, mt') rs1 -> fullmatch L q path = None) ->
           fullmatch L p path = Some groups ->
           let c' := with_request (Request.set_params groups (request c)) c in
           Request.params (request c') = groups
           /\ (forall f, dict_get method mt = Some f ->
                 dispatch (Compiled L rs) c
                 = bind (asyncfy CallHandler f)
                        (fun a => lift (of_result
                                          (Response.from_any (json_dumps L) a)))
                        c')
           /\ (dict_get method mt = None ->
                 exists r, dispatch (Compiled L rs) c = (Done r, c')
                           /\ Response.status r = 405%Z
                           /\ MultiDict._get "allow" [] (Response.headers r)
                              = [VStr (String.concat ", " (dict_keys mt))])).
Proof.
  intros rs c path method. split.
  - intros H. cbn [dispatch].
    rewrite <- (app_nil_r rs). rewrite match_routes_skip by assumption.
    eexists. split; reflexivity.
  - intros rs1 p mt rs2 groups Hrs Hskip Hp c'. subst rs. cbn [dispatch].
    rewrite match_routes_skip by assumption. cbn [match_routes].
    unfold path in Hp. rewrite Hp.
    assert (Hm : Request.method
                   (request (with_request
                               (Request.set_params groups (request c)) c))
                 = Request.method (request c)) by reflexivity.
    split; [reflexivity|]. split.
    + intros f Hf. unfold method in Hf. now rewrite Hm, Hf.
    + intros Hnone. unfold method in Hnone. rewrite Hm, Hnone.
      destruct (method_not_allowed_spec mt) as (r & Hr & Hst & Hallow).
      exists r. rewrite Hr. cbn [of_result]. auto.
Qed.
End RoutingFacts.

(** The theorem on a table of two literal routes: [/users] does not
    match the path [/users/42], the second route does, and it has no
    handler for DELETE. *)
Lemma C6_first_full_match_wins_witness :
  let show : handler unit := returning "show" (VStr "user 42") in
  let rs : list (string * methods_table unit) :=
    route "/users/42" ["GET"; "PUT"] show (route "/users" ["GET"] show []) in
  let c := mkCtx (example_request "DELETE" "/users/42") [] tt [] in
  exists r, dispatch (Compiled example_lib rs) c = (Done r, c)
            /\ Response.status r = 405%Z
            /\ MultiDict._get "allow" [] (Response.headers r) = [VStr "GET, PUT"].
Proof.
  intros show rs c.
  destruct (@C6_first_full_match_wins unit example_lib rs c) as [_ H].
  destruct (H [("/users", [("GET", show)])] "/users/42"
              [("GET", show); ("PUT", show)] [] []) as (_ & _ & H405).
  - reflexivity.
  - intros q mt [Heq|[]]. inversion Heq. reflexivity.
  - reflexivity.
  - apply H405. reflexivity.
Defined.

(** ** Before- and after-hooks *)

Section HookFacts.
Variable W : Type.
Variable L : Lib.
Implicit Types (c : ctx W).

Lemma asyncfy_trace tag (f : func W Request.t) c :
  trace (snd (asyncfy tag f c)) = trace c ++ [tag (fname f)].
Proof.
  unfold asyncfy. destruct (fbody f (request c) (world c)) as [[o r] w].
  reflexivity.
Qed.

Lemma raise_from_any_ctx (A : Type) a c :
  snd (@raise_from_any W L A a c) = c
  /\ forall x, fst (@raise_from_any W L A a c) <> Done x.
Proof.
  unfold raise_from_any.
  destruct (Response.from_any (json_dumps L) a); split; try reflexivity;
    discriminate.
Qed.

Lemma run_before_app (pre post : list (func W Request.t)) :
  forall c,
    run_before L (pre ++ post) c
    = match run_before L pre c with
      | (Done _, c') => run_before L post c'
      | other => other
      end.
Proof.
  induction pre as [|f pre IH]; intros c; [reflexivity|].
  cbn [run_before app]. unfold bind.
  destruct (asyncfy CallBefore f c) as [[a| |] c1]; try reflexivity.
  destruct (Response.truthy a); [|apply IH].
  destruct (raise_from_any_ctx unit a c1) as [_ Hnd].
  destruct (raise_from_any L a c1) as [[x| |] c2]; try reflexivity.
  now destruct (Hnd x).
Qed.

(** Hooks that all let the request through were all called, in order. *)
Lemma run_before_trace (hooks : list (func W Request.t)) :
  forall c c', run_before L hooks c = (Done tt, c') ->
               trace c' = trace c ++ before_calls hooks.
Proof.
  induction hooks as [|f hooks IH]; intros c c' H.
  - inversion H. now rewrite app_nil_r.
  - cbn [run_before] in H. unfold bind in H.
    pose proof (asyncfy_trace CallBefore f c) as T.
    destruct (asyncfy CallBefore f c) as [[a| |] c1]; try discriminate.
    destruct (Response.truthy a).
    + destruct (raise_from_any_ctx unit a c1) as [_ Hnd].
      rewrite H in Hnd. now destruct (Hnd tt).
    + apply IH in H. rewrite H. simpl in T. rewrite T.
      now rewrite <- app_assoc.
Qed.

(** The after-hooks called are a prefix of the registered ones: at
    least the first, and all of them when the stage ends normally. *)
Lemma run_after_trace (hooks : list (func W (Request.t * Response.t))) :
  forall resp c,
    exists k,
      trace (snd (run_after L hooks resp c))
      = trace c ++ after_calls (firstn k hooks)
      /\ Nat.min 1 (length hooks) <= k <= length hooks
      /\ (forall r c', run_after L hooks resp c = (Done r, c') ->
                       k = length hooks).
Proof.
  induction hooks as [|f hooks IH]; intros resp c.
  - exists 0. simpl. rewrite app_nil_r. repeat split; auto.
  - cbn [run_after]. unfold bind, asyncfy_after.
    destruct (fbody f (request c, resp) (world c)) as [[o [req' resp']] w'].
    destruct o as [a| |].
    + cbn [fst snd]. destruct (Response.truthy a).
      * exists 1. destruct (raise_from_any_ctx Response.t a
                             (mkCtx req' (stream c) w'
                                    (trace c ++ [CallAfter (fname f)])))
          as [Hc Hnd].
        rewrite Hc. simpl. repeat split; try lia.
        intros r c' H. rewrite H in Hnd. now destruct (Hnd r).
      * destruct (IH resp' (mkCtx req' (stream c) w'
                                  (trace c ++ [CallAfter (fname f)])))
          as (k & Ht & Hk & Hdone).
        exists (S k). rewrite Ht. simpl. rewrite <- app_assoc.
        repeat split; try lia.
        intros r c' H. f_equal. eapply Hdone. exact H.
    + exists 1. simpl. repeat split; try lia. discriminate.
    + exists 1. simpl. repeat split; try lia. discriminate.
Qed.

Lemma finish_trace (app : App W L) resp c :
  trace (snd (finish app resp c))
  = trace (snd (run_after L (_after app) resp c)).
Proof.
  unfold finish, try_except_Response.
  destruct (run_after L (_after app) resp c) as [[r|[r|e]|] c']; reflexivity.
Qed.

(** The http branch is [serve] once headers, cookies and content are
    decoded. *)
Lemma process_then_finish_is_serve (app : App W L) raw c0 c :
  bind (parse_headers L raw)
       (fun _ => bind (load_cookies L)
                      (fun _ => decode_content L (_max_content app))) c0
  = (Done tt, c) ->
  bind (process app raw) (fun resp => finish app resp) c0 = serve app c.
Proof.
  unfold process, serve, try_except_Response, bind.
  destruct (parse_headers L raw c0) as [[[]| |] c1]; try discriminate.
  destruct (load_cookies L c1) as [[[]| |] c2]; try discriminate.
  destruct (decode_content L (_max_content app) c2) as [[[]| |] c3];
    try discriminate.
  intros H. inversion H. subst c3. reflexivity.
Qed.

(** C7 (amended): when a before-hook returns a true value that
    [from_any] turns into a response (the hooks before it having
    returned false values), that response is the one handed to the
    after-hooks; the calls made are the before-hooks up to that hook and
    then after-hooks only, so no later before-hook and no handler is
    called; the after-hooks are called in registration order, at least
    the first of them, and all of them when none returns a true value or
    raises. *)
Theorem C7_before_hook_short_circuit :
  forall (app : App W L) pre h post c c1 a c2 r,
    _before app = pre ++ h :: post ->
    run_before L pre c = (Done tt, c1) ->
    asyncfy CallBefore h c1 = (Done a, c2) ->
    Response.truthy a = true ->
    Response.from_any (json_dumps L) a = Ok r ->
    serve app c = finish app r c2
    /\ trace c2 = trace c ++ before_calls pre ++ [CallBefore (fname h)]
    /\ exists k,
         trace (snd (serve app c))
         = trace c ++ before_calls pre ++ [CallBefore (fname h)]
             ++ after_calls (firstn k (_after app))
         /\ Nat.min 1 (length (_after app)) <= k <= length (_after app)
         /\ (forall r' c3, run_after L (_after app) r c2 = (Done r', c3) ->
                           k = length (_after app)).
Proof.
  intros app pre h post c c1 a c2 r Hb Hpre Hh Ht Hr.
  assert (S : serve app c = finish app r c2).
  { unfold serve, bind at 1, try_except_Response at 1, bind at 1.
    rewrite Hb, run_before_app, Hpre. cbn [run_before].
    unfold bind at 1. rewrite Hh, Ht. unfold raise_from_any. rewrite Hr.
    reflexivity. }
  assert (T : trace c2 = trace c ++ before_calls pre ++ [CallBefore (fname h)]).
  { pose proof (asyncfy_trace CallBefore h c1) as T. rewrite Hh in T.
    simpl in T. rewrite T. erewrite run_before_trace by exact Hpre.
    now rewrite <- app_assoc. }
  split; [exact S|]. split; [exact T|].
  destruct (run_after_trace (_after app) r c2) as (k & Hk & Hle & Hdone).
  exists k. rewrite S, finish_trace, Hk, T.
  repeat rewrite <- app_assoc. auto.
Qed.
End HookFacts.

(** C7 as stated fails: a before-hook that returns the empty string, a
    value that is not null and that [from_any] would turn into a 200
    response with an empty body, does not stop the request; the handler is
    called and its response is the result. *)
Lemma C7_empty_string_does_not_short_circuit :
  Response.AVal (VStr "") <> Response.AVal VNone
  /\ (exists r0, Response.from_any (json_dumps example_lib) (Response.AVal (VStr ""))
                 = Ok r0 /\ Response.body r0 = "")
  /\ exists r,
       http (example_app [returning "hook" (VStr "")] [] 1048576)
            (example_scope "GET" "") [] tt
       = (Done r, tt, [CallBefore "hook"; CallHandler "root"])
       /\ Response.body r = "hello".
Proof.
  split; [discriminate|]. split.
  - eexists. split; reflexivity.
  - eexists. split; reflexivity.
Qed.

(** The theorem on an application with one vetoing before-hook between
    two others, and two after-hooks. *)
Lemma C7_before_hook_short_circuit_witness :
  let app := example_app
               [returning "log" VNone; returning "auth" (VInt 401);
                returning "late" (VStr "never")]
               [returning "cors" VNone; returning "access_log" VNone] 1048576 in
  let c := mkCtx (example_request "GET" "/") [] tt [] in
  exists k,
    trace (snd (serve app c))
    = [CallBefore "log"; CallBefore "auth"]
        ++ after_calls (firstn k (_after app))
    /\ k = 2.
Proof.
  intros app c.
  destruct (@C7_before_hook_short_circuit unit example_lib app
              [returning "log" VNone] (returning "auth" (VInt 401))
              [returning "late" (VStr "never")] c
              (mkCtx (example_request "GET" "/") [] tt [CallBefore "log"])
              (Response.AVal (VInt 401))
              (mkCtx (example_request "GET" "/") [] tt
                     [CallBefore "log"; CallBefore "auth"])
              {| Response.status := 401;
                 Response.description := "Unauthorized";
                 Response.headers :=
                   [("content-type", [VStr "text/html; charset=utf-8"])];
                 Response.cookies := [];
                 Response.body := "Unauthorized" |}
              eq_refl eq_refl eq_refl eq_refl eq_refl)
    as (_ & _ & k & Hk & _ & Hall).
  exists k. split; [exact Hk|].
  eapply Hall. reflexivity.
Defined.

(** * Further properties *)

(** ** MultiDict: construction, lookup, iteration *)

Section MoreDictFacts.
Variable V : Type.
Implicit Types (d : pydict V) (k : string) (v : V).

Lemma dict_set_absent k v d :
  dict_get k d = None -> dict_set k v d = d ++ [(k, v)].
Proof.
  induction d as [|[k' v'] d IH]; simpl; [reflexivity|].
  destruct (String.eqb k k'); [discriminate|].
  intros H. now rewrite IH.
Qed.

Lemma dict_set_set k v v' d : dict_set k v (dict_set k v' d) = dict_set k v d.
Proof.
  induction d as [|[k2 v2] d IH]; simpl.
  - now rewrite String.eqb_refl.
  - destruct (String.eqb k k2) eqn:E; simpl; rewrite E; [reflexivity|].
    now rewrite IH.
Qed.

Lemma dict_set_same k v d : dict_get k d = Some v -> dict_set k v d = d.
Proof.
  induction d as [|[k2 v2] d IH]; simpl; [discriminate|].
  destruct (String.eqb k k2) eqn:E.
  - intros H. inversion H. reflexivity.
  - intros H. now rewrite IH.
Qed.

Lemma dict_del_last k v d : dict_get k d = None -> dict_del k (d ++ [(k, v)]) = d.
Proof.
  induction d as [|[k2 v2] d IH]; simpl.
  - now rewrite String.eqb_refl.
  - destruct (String.eqb k k2); [discriminate|].
    intros H. now rewrite IH.
Qed.

Lemma dict_get_app_absent k d d' :
  dict_get k d = None -> dict_get k (d ++ d') = dict_get k d'.
Proof.
  induction d as [|[k2 v2] d IH]; simpl; [reflexivity|].
  destruct (String.eqb k k2); [discriminate | exact IH].
Qed.

Lemma In_dict_get k v d : unique_keys d -> In (k, v) d -> dict_get k d = Some v.
Proof.
  unfold unique_keys.
  induction d as [|[k2 v2] d IH]; simpl; [tauto|].
  intros U [H|H].
  - inversion H. subst. now rewrite String.eqb_refl.
  - inversion U as [|? ? Hnin Hnd]; subst.
    destruct (String.eqb k k2) eqn:E.
    + apply String.eqb_eq in E. subst k2. exfalso. apply Hnin.
      change k with (fst (k, v)). now apply in_map.
    + now apply IH.
Qed.

Lemma dict_get_In k v d : dict_get k d = Some v -> In (k, v) d.
Proof.
  induction d as [|[k2 v2] d IH]; simpl; [discriminate|].
  destruct (String.eqb k k2) eqn:E.
  - apply String.eqb_eq in E. subst. intros H. inversion H. now left.
  - intros H. right. now apply IH.
Qed.

(** Successive assignments from a dict with unique keys. *)
Lemma fold_set_get (other : pydict V) :
  unique_keys other ->
  forall d k,
    dict_get k (fold_left (fun t kv => dict_set (fst kv) (snd kv) t) other d)
    = match dict_get k other with Some v => Some v | None => dict_get k d end.
Proof.
  unfold unique_keys.
  induction other as [|[k2 v2] other IH]; intros U d k; simpl; [reflexivity|].
  inversion U as [|? ? Hnin Hnd]; subst.
  rewrite IH by assumption.
  destruct (String.eqb k k2) eqn:E.
  - apply String.eqb_eq in E. subst k2.
    rewrite (not_in_dict_get_none _ _ Hnin). apply dict_get_set_same.
  - destruct (dict_get k other); [reflexivity|].
    now apply dict_get_set_other.
Qed.

Lemma fold_set_unique (other : pydict V) :
  forall d, unique_keys d ->
            unique_keys (fold_left (fun t kv => dict_set (fst kv) (snd kv) t) other d).
Proof.
  induction other as [|[k2 v2] other IH]; intros d U; simpl; [assumption|].
  apply IH. now apply unique_keys_set.
Qed.

(** A list of pairs with unique keys is its own dict. *)
Lemma dict_of_pairs_unique (l : pydict V) : unique_keys l -> dict_of_pairs l = l.
Proof.
  unfold dict_of_pairs.
  assert (G : forall l d,
             unique_keys (d ++ l) ->
             fold_left (fun t kv => dict_set (fst kv) (snd kv) t) l d = d ++ l).
  { clear l. induction l as [|[k v] l IH]; intros d U; simpl.
    - now rewrite app_nil_r.
    - rewrite dict_set_absent.
      + rewrite IH; rewrite <- app_assoc; [reflexivity | exact U].
      + apply not_in_dict_get_none. unfold unique_keys, dict_keys in U.
        rewrite map_app in U. simpl in U.
        apply NoDup_remove_2 in U. intros Hin. apply U.
        apply in_or_app. now left. }
  intros U. now apply (G l []).
Qed.
End MoreDictFacts.

Lemma last_item_snoc (l : list value) (v : value) : last_item (l ++ [v]) = Ok v.
Proof.
  unfold last_item. destruct (l ++ [v]) eqn:E.
  - now destruct l.
  - rewrite <- E. now rewrite last_last.
Qed.

Lemma setitem_keys k v (m : MultiDict.t) :
  dict_keys (MultiDict.__setitem__ k v m)
  = if existsb (String.eqb k) (dict_keys m) then dict_keys m else dict_keys m ++ [k].
Proof.
  rewrite existsb_keys_get.
  unfold MultiDict.__setitem__, dict_setdefault.
  destruct (dict_get k m) as [l|] eqn:G.
  - now erewrite dict_keys_set_present by eassumption.
  - erewrite dict_keys_set_present by apply dict_get_set_same.
    now apply dict_keys_set_absent.
Qed.

Lemma set_all_keys ops :
  forall m,
    dict_keys (set_all ops m)
    = fold_left (fun acc k => if existsb (String.eqb k) acc then acc else acc ++ [k])
                (map fst ops) (dict_keys m).
Proof.
  induction ops as [|[k v] ops IH]; intros m; simpl; [reflexivity|].
  now rewrite IH, setitem_keys.
Qed.

Lemma init_seq_is_set_all (l : list (string * value)) :
  MultiDict.__init__ (MultiDict.MSeq l) = Ok (set_all l []).
Proof. reflexivity. Qed.

(** X1: a MultiDict built from a list of pairs keeps, for every key, the
    values of its pairs in list order; [get] gives the last of them, the
    keys are iterated in the order of their first occurrence, and
    construction never fails. *)
Theorem X1_multidict_from_pairs :
  forall (l : list (string * value)) (k : string) (default : value)
         (default_seq : list value),
    exists m,
      MultiDict.__init__ (MultiDict.MSeq l) = Ok m
      /\ MultiDict._get k default_seq m
         = match values_set k l with [] => default_seq | vs => vs end
      /\ MultiDict.get k default m = Ok (last (values_set k l) default)
      /\ MultiDict.keys m = first_occurrences (map fst l)
      /\ unique_keys m.
Proof.
  intros l k default default_seq. exists (set_all l []).
  split; [apply init_seq_is_set_all|].
  pose proof (set_all_get_empty k l) as G.
  split; [|split; [|split]].
  - unfold MultiDict._get. rewrite G. now destruct (values_set k l).
  - unfold MultiDict.get. rewrite G. destruct (values_set k l) as [|v vs].
    + reflexivity.
    + apply last_item_nonempty.
  - unfold MultiDict.keys, first_occurrences. now rewrite set_all_keys.
  - apply set_all_unique. constructor.
Qed.

Lemma dict_get_map_wrap k (d : pydict value) :
  dict_get k (map (fun kv => (fst kv, MultiDict.wrap (snd kv))) d)
  = option_map MultiDict.wrap (dict_get k d).
Proof.
  induction d as [|[k2 v2] d IH]; simpl; [reflexivity|].
  now destruct (String.eqb k k2).
Qed.

Lemma keys_map_wrap (d : pydict value) :
  dict_keys (map (fun kv => (fst kv, MultiDict.wrap (snd kv))) d) = dict_keys d.
Proof. unfold dict_keys. rewrite map_map. reflexivity. Qed.

(** X2: a MultiDict built from a plain dict has the dict's keys in the
    dict's order; a value that is a list is taken as the key's sequence,
    any other value becomes a one-element sequence. *)
Theorem X2_multidict_from_dict :
  forall d : pydict value,
    unique_keys d ->
    exists m,
      MultiDict.__init__ (MultiDict.MDict d) = Ok m
      /\ MultiDict.keys m = dict_keys d
      /\ forall k default_seq,
           MultiDict._get k default_seq m
           = match dict_get k d with
             | Some (VList l) => l
             | Some v => [v]
             | None => default_seq
             end.
Proof.
  intros d U. eexists. split; [reflexivity|].
  assert (U' : unique_keys (map (fun kv => (fst kv, MultiDict.wrap (snd kv))) d))
    by (unfold unique_keys; now rewrite keys_map_wrap).
  rewrite (dict_of_pairs_unique U'). split.
  - apply keys_map_wrap.
  - intros k default_seq. unfold MultiDict._get. rewrite dict_get_map_wrap.
    destruct (dict_get k d) as [v|]; [|reflexivity]. now destruct v.
Qed.

Lemma X2_multidict_from_dict_witness :
  exists m,
    MultiDict.__init__
      (MultiDict.MDict [("a", VStr "x"); ("b", VList [VInt 1; VInt 2])]) = Ok m
    /\ MultiDict.keys m = ["a"; "b"]
    /\ forall k default_seq,
         MultiDict._get k default_seq m
         = match dict_get k [("a", VStr "x"); ("b", VList [VInt 1; VInt 2])] with
           | Some (VList l) => l
           | Some v => [v]
           | None => default_seq
           end.
Proof.
  apply (@X2_multidict_from_dict [("a", VStr "x"); ("b", VList [VInt 1; VInt 2])]).
  repeat constructor; simpl; intuition discriminate.
Defined.

(** X3: after any sequence of sets, [m[k]] is the value set last for
    [k], and raises [KeyError] when [k] was never set, where [get] returns
    its default. *)
Theorem X3_getitem_last_or_KeyError :
  forall (ops : list (string * value)) (k : string) (default : value),
    MultiDict.__getitem__ k (set_all ops [])
    = match values_set k ops with
      | [] => Err (KeyError k)
      | v :: vs => Ok (last (v :: vs) default)
      end
    /\ (values_set k ops = [] -> MultiDict.get k default (set_all ops []) = Ok default).
Proof.
  intros ops k default. pose proof (set_all_get_empty k ops) as G. split.
  - unfold MultiDict.__getitem__. rewrite G.
    destruct (values_set k ops) as [|v vs]; [reflexivity|].
    apply last_item_nonempty.
  - intros E. unfold MultiDict.get. rewrite G, E. reflexivity.
Qed.

Lemma X3_getitem_last_or_KeyError_witness :
  MultiDict.get "missing" (VInt 0) (set_all [("a", VInt 1)] []) = Ok (VInt 0).
Proof.
  apply (X3_getitem_last_or_KeyError [("a", VInt 1)] "missing" (VInt 0)).
  reflexivity.
Defined.

Lemma items_of_entries (f : string -> list value) (m : MultiDict.t) :
  (forall k l, In (k, l) m -> l = f k /\ l <> []) ->
  MultiDict.items m = Ok (map (fun k => (k, last (f k) VNone)) (dict_keys m)).
Proof.
  induction m as [|[k l] m IH]; intros H; simpl; [reflexivity|].
  destruct (H k l) as [Hl Hne]; [now left|].
  rewrite IH by (intros k' l' Hin; apply H; now right).
  destruct l as [|v vs]; [congruence|].
  rewrite (last_item_nonempty v vs VNone). now rewrite <- Hl.
Qed.

(** X4: the single-value view after any sequence of sets: [items()]
    yields every key once, in the order in which the keys were first set,
    each with the value set last for it; [values()] yields those values. *)
Theorem X4_items_first_insertion_order :
  forall ops : list (string * value),
    let m := set_all ops [] in
    let keys := first_occurrences (map fst ops) in
    MultiDict.keys m = keys
    /\ MultiDict.items m
       = Ok (map (fun k => (k, last (values_set k ops) VNone)) keys)
    /\ MultiDict_values m
       = Ok (map (fun k => last (values_set k ops) VNone) keys).
Proof.
  intros ops m keys.
  assert (K : dict_keys m = keys)
    by (unfold m, keys, first_occurrences; now rewrite set_all_keys).
  assert (I : MultiDict.items m
              = Ok (map (fun k => (k, last (values_set k ops) VNone)) keys)).
  { rewrite <- K. apply items_of_entries. intros k l Hin.
    assert (U : unique_keys m) by (apply set_all_unique; constructor).
    pose proof (In_dict_get _ _ U Hin) as G.
    unfold m in G. rewrite set_all_get_empty in G.
    destruct (values_set k ops); [discriminate|].
    inversion G. split; [reflexivity | discriminate]. }
  split; [exact K|]. split; [exact I|].
  unfold MultiDict_values. rewrite I. now rewrite map_map.
Qed.

(** X5: [pop] undoes the last set.  When the key already had values the
    popped object is the value just set; when the set created the key,
    [pop] removes the key again but returns the one-element list, not the
    value. *)
Theorem X5_pop_undoes_set :
  forall (m : MultiDict.t) (k : string) (v default : value),
    dict_get k m <> Some [] ->
    MultiDict.pop k default (MultiDict.__setitem__ k v m)
    = (match dict_get k m with Some _ => v | None => VList [v] end, m).
Proof.
  intros m k v default Hne.
  unfold MultiDict.pop. rewrite setitem_get_same.
  unfold MultiDict.__setitem__, dict_setdefault.
  destruct (dict_get k m) as [l|] eqn:G.
  - destruct l as [|x l]; [congruence|].
    replace (1 <? length ((x :: l) ++ [v]))%nat with true
      by (symmetry; apply Nat.ltb_lt; rewrite length_app; simpl; lia).
    rewrite last_last, removelast_last, dict_set_set.
    now rewrite dict_set_same by exact G.
  - simpl. rewrite dict_set_set. rewrite dict_set_absent by exact G.
    now rewrite dict_del_last by exact G.
Qed.

Lemma X5_pop_undoes_set_witness :
  MultiDict.pop "a" VNone (MultiDict.__setitem__ "a" (VInt 2) [("a", [VInt 1])])
  = (VInt 2, [("a", [VInt 1])])
  /\ MultiDict.pop "a" VNone (MultiDict.__setitem__ "a" (VInt 2) [])
     = (VList [VInt 2], []).
Proof.
  split.
  - apply (@X5_pop_undoes_set [("a", [VInt 1])] "a" (VInt 2) VNone). discriminate.
  - apply (@X5_pop_undoes_set [] "a" (VInt 2) VNone). discriminate.
Defined.

(** X6: [update] overwrites: for every key of its argument the map then
    holds only the new value (earlier values of the key are dropped); the
    other keys keep their sequences. *)
Theorem X6_update_overwrites :
  forall (m : MultiDict.t) (new : pydict value),
    unique_keys new ->
    exists m',
      MultiDict.update new m = Ok m'
      /\ forall k default_seq,
           MultiDict._get k default_seq m'
           = match dict_get k new with
             | Some (VList l) => l
             | Some v => [v]
             | None => MultiDict._get k default_seq m
             end.
Proof.
  intros m new U. eexists. split; [reflexivity|].
  assert (U' : unique_keys (map (fun kv => (fst kv, MultiDict.wrap (snd kv))) new))
    by (unfold unique_keys; now rewrite keys_map_wrap).
  intros k default_seq. unfold MultiDict._get, MultiDict._update.
  rewrite (dict_of_pairs_unique U'), (fold_set_get U'), dict_get_map_wrap.
  destruct (dict_get k new) as [v|]; [|reflexivity]. now destruct v.
Qed.

Lemma X6_update_overwrites_witness :
  exists m',
    MultiDict.update [("a", VInt 9)] (set_all [("a", VInt 1); ("a", VInt 2)] []) = Ok m'
    /\ forall k default_seq,
         MultiDict._get k default_seq m'
         = match dict_get k [("a", VInt 9)] with
           | Some (VList l) => l
           | Some v => [v]
           | None => MultiDict._get k default_seq
                       (set_all [("a", VInt 1); ("a", VInt 2)] [])
           end.
Proof.
  apply (@X6_update_overwrites (set_all [("a", VInt 1); ("a", VInt 2)] [])
                               [("a", VInt 9)]).
  repeat constructor; simpl; intuition discriminate.
Defined.

(** X7: [setdefault] never replaces what a key holds: a second
    [setdefault] on the same key, whatever its default, returns what the
    first returned and leaves the map as the first left it. *)
Theorem X7_setdefault_keeps_first :
  forall (m : MultiDict.t) (k : string) (d1 d2 : value),
    MultiDict.setdefault k d2 (snd (MultiDict.setdefault k d1 m))
    = MultiDict.setdefault k d1 m.
Proof.
  intros m k d1 d2. unfold MultiDict.setdefault, dict_setdefault.
  destruct (dict_get k m) as [l|] eqn:G; simpl.
  - now rewrite G.
  - now rewrite dict_get_set_same.
Qed.

(** ** Headers *)

Lemma lower_ascii_idempotent (c : ascii) : lower_ascii (lower_ascii c) = lower_ascii c.
Proof. destruct c as [[] [] [] [] [] [] [] []]; reflexivity. Qed.

Lemma lower_idempotent (s : string) : lower (lower s) = lower s.
Proof.
  induction s as [|c s IH]; simpl; [reflexivity|].
  now rewrite lower_ascii_idempotent, IH.
Qed.

Lemma nested_get k (m : MultiDict.t) :
  dict_get k (nested m)
  = match dict_get k m with Some vs => Some [VList vs] | None => None end.
Proof.
  unfold nested. induction m as [|[k2 vs] m IH]; simpl; [reflexivity|].
  now destruct (String.eqb k k2).
Qed.

Lemma nested_set k vs (m : MultiDict.t) :
  dict_set k [VList vs] (nested m) = nested (dict_set k vs m).
Proof.
  unfold nested. induction m as [|[k2 vs2] m IH]; simpl; [reflexivity|].
  destruct (String.eqb k k2); simpl; [reflexivity | now rewrite IH].
Qed.

Lemma nested_keys (m : MultiDict.t) : dict_keys (nested m) = dict_keys m.
Proof. unfold nested, dict_keys. now rewrite map_map. Qed.

(** Appending to a Headers of that form is a set on the map of values. *)
Lemma append_to_nested k v (m : MultiDict.t) :
  Headers.append_to k v (nested m)
  = Ok (nested (MultiDict.__setitem__ (lower k) v m)).
Proof.
  unfold Headers.append_to, Headers._setdefault, MultiDict.setdefault,
         MultiDict.__setitem__, dict_setdefault.
  rewrite nested_get.
  destruct (dict_get (lower k) m) as [vs|] eqn:G.
  - simpl. rewrite nested_get, G. simpl. now rewrite nested_set.
  - simpl. rewrite dict_get_set_same. simpl.
    now rewrite !dict_set_set, nested_set.
Qed.

Lemma setitem_is_append_to k v (h : Headers.t) :
  Headers.__setitem__ k v h = Headers.append_to k v h.
Proof. reflexivity. Qed.

Lemma append_all_nested (l : list (string * value)) :
  forall m : MultiDict.t,
    Headers.append_all l (nested m) = Ok (nested (set_all (lower_names l) m)).
Proof.
  induction l as [|[k v] l IH]; intros m; simpl; [reflexivity|].
  rewrite append_to_nested. apply IH.
Qed.

Lemma headers_init_seq (l : list (string * value)) :
  Headers.__init__ (MultiDict.MSeq l) = Ok (nested (set_all (lower_names l) [])).
Proof. unfold Headers.__init__. simpl. apply (append_all_nested l []). Qed.

Lemma values_set_lower_names k (l : list (string * value)) :
  values_set (lower k) (lower_names l)
  = map snd (filter (fun kv => String.eqb (lower k) (lower (fst kv))) l).
Proof.
  unfold values_set, lower_names.
  induction l as [|[k2 v2] l IH]; simpl; [reflexivity|].
  destruct (String.eqb (lower k) (lower k2)); simpl; now rewrite IH.
Qed.

Lemma first_occurrences_acc_forall (P : string -> Prop) (keys : list string) :
  forall acc,
    Forall P acc -> Forall P keys ->
    Forall P (fold_left
                (fun acc k => if existsb (String.eqb k) acc then acc else acc ++ [k])
                keys acc).
Proof.
  induction keys as [|k keys IH]; intros acc Ha Hk; simpl; [assumption|].
  inversion Hk; subst. apply IH; [|assumption].
  destruct (existsb (String.eqb k) acc); [assumption|].
  apply Forall_app. split; [assumption | now constructor].
Qed.

(** What the lookups find in a Headers of that form. *)
Lemma nested_lookups k (m : MultiDict.t) (default : value) (default_seq : list value) :
  (forall vs, dict_get (lower k) m = Some vs -> vs <> []) ->
  Headers._get k default_seq (nested m)
  = Ok (VList (match dict_get (lower k) m with Some vs => vs | None => default_seq end))
  /\ Headers.get k default (nested m)
     = Ok (match dict_get (lower k) m with Some vs => last vs default | None => default end)
  /\ Headers.__getitem__ k (nested m)
     = match dict_get (lower k) m with
       | Some vs => Ok (last vs default)
       | None => Err (KeyError (lower k))
       end.
Proof.
  intros Hne.
  unfold Headers._get, Headers.get, Headers.__getitem__,
         MultiDict.get, MultiDict.__getitem__.
  rewrite nested_get.
  destruct (dict_get (lower k) m) as [vs|]; simpl.
  - destruct vs as [|v vs]; [now destruct (Hne [] eq_refl)|].
    rewrite (last_item_nonempty v vs default). auto.
  - auto.
Qed.

(** X8: on a Headers built from a list of pairs (as the request headers
    are), names are case-insensitive: setting a value under a name
    succeeds and gives the Headers built from the list with that pair
    added, and [get] and [h[name]] then return the value under any
    spelling of the name that differs only in the case of ASCII
    letters. *)
Theorem X8_headers_case_insensitive :
  forall (l : list (string * value)) (k k' : string) (v default : value),
    lower k = lower k' ->
    exists h h',
      Headers.__init__ (MultiDict.MSeq l) = Ok h
      /\ Headers.__setitem__ k v h = Ok h'
      /\ Headers.__init__ (MultiDict.MSeq (l ++ [(k, v)])) = Ok h'
      /\ Headers.get k' default h' = Ok v
      /\ Headers.__getitem__ k' h' = Ok v.
Proof.
  intros l k k' v default E.
  exists (nested (set_all (lower_names l) [])).
  exists (nested (MultiDict.__setitem__ (lower k) v (set_all (lower_names l) []))).
  split; [apply headers_init_seq|].
  split; [rewrite setitem_is_append_to; apply append_to_nested|].
  split.
  - rewrite headers_init_seq. unfold lower_names, set_all.
    rewrite map_app, fold_left_app. reflexivity.
  - unfold Headers.get, Headers.__getitem__, MultiDict.get, MultiDict.__getitem__.
    rewrite nested_get, <- E, setitem_get_same. simpl.
    split; apply last_item_snoc.
Qed.

Lemma X8_headers_case_insensitive_witness :
  exists h h',
    Headers.__init__ (MultiDict.MSeq [("Accept", VStr "*/*")]) = Ok h
    /\ Headers.__setitem__ "Content-Type" (VStr "text/plain") h = Ok h'
    /\ Headers.__init__
         (MultiDict.MSeq ([("Accept", VStr "*/*")]
                            ++ [("Content-Type", VStr "text/plain")])) = Ok h'
    /\ Headers.get "content-type" VNone h' = Ok (VStr "text/plain")
    /\ Headers.__getitem__ "content-type" h' = Ok (VStr "text/plain").
Proof.
  apply (@X8_headers_case_insensitive [("Accept", VStr "*/*")]
           "Content-Type" "content-type" (VStr "text/plain") VNone).
  reflexivity.
Defined.

(** X9: a Headers built from a list of pairs never fails and stores every
    name in lower case; under each name it stores a one-element sequence
    whose element is the list of the values of all the pairs whose name
    has that lower-case form, in list order.  [_get] returns that list
    (or the default sequence), [get] and [h[name]] its last value (or the
    default, respectively [KeyError]). *)
Theorem X9_headers_from_pairs_lowercase :
  forall (l : list (string * value)) (k : string) (default : value)
         (default_seq : list value),
    let vs := map snd (filter (fun kv => String.eqb (lower k) (lower (fst kv))) l) in
    exists h,
      Headers.__init__ (MultiDict.MSeq l) = Ok h
      /\ Forall (fun name => lower name = name) (MultiDict.keys h)
      /\ dict_get (lower k) h
         = match vs with [] => None | _ => Some [VList vs] end
      /\ Headers._get k default_seq h
         = Ok (VList (match vs with [] => default_seq | _ => vs end))
      /\ Headers.get k default h = Ok (last vs default)
      /\ Headers.__getitem__ k h
         = match vs with
           | [] => Err (KeyError (lower k))
           | _ => Ok (last vs default)
           end.
Proof.
  intros l k default default_seq vs.
  exists (nested (set_all (lower_names l) [])).
  split; [apply headers_init_seq|].
  assert (G : dict_get (lower k) (set_all (lower_names l) [])
              = match vs with [] => None | _ => Some vs end).
  { rewrite set_all_get_empty, values_set_lower_names. fold vs. now destruct vs. }
  split.
  - unfold MultiDict.keys. rewrite nested_keys, set_all_keys.
    apply first_occurrences_acc_forall; [constructor|].
    unfold lower_names. rewrite map_map. simpl.
    apply Forall_forall. intros x Hx.
    apply in_map_iff in Hx. destruct Hx as (kv & Hkv & _). subst x.
    apply lower_idempotent.
  - split.
    + rewrite nested_get, G. now destruct vs.
    + destruct (nested_lookups k (set_all (lower_names l) []) default default_seq)
        as (H1 & H2 & H3).
      { intros ws Hw. rewrite G in Hw. destruct vs; [discriminate|].
        inversion Hw. discriminate. }
      rewrite H1, H2, H3, G. destruct vs; auto.
Qed.

(** ** Response construction *)

(** X10: every constructed Response has a content type: the one given in
    [headers] when there is one, [text/html; charset=utf-8] otherwise;
    the other headers are the given ones, and status and cookies are the
    arguments. *)
Theorem X10_response_content_type_default :
  forall (st : Z) (hdrs : MultiDict.mapping) (cks : pydict string) (b : string)
         (h0 : MultiDict.t),
    MultiDict.__init__ hdrs = Ok h0 ->
    dict_get "content-type" h0 <> Some [] ->
    exists r,
      Response.__init__ st hdrs cks b = Ok r
      /\ Response.status r = st
      /\ Response.cookies r = cks
      /\ MultiDict._get "content-type" [] (Response.headers r)
         = match dict_get "content-type" h0 with
           | Some l => l
           | None => [VStr "text/html; charset=utf-8"]
           end
      /\ forall k, String.eqb k "content-type" = false ->
                   dict_get k (Response.headers r) = dict_get k h0.
Proof.
  intros st hdrs cks b h0 H0 Hne.
  unfold Response.__init__. rewrite H0.
  unfold MultiDict.setdefault, dict_setdefault.
  destruct (dict_get "content-type" h0) as [l|] eqn:G.
  - destruct l as [|x l]; [congruence|].
    eexists. split; [reflexivity|]. simpl. repeat split.
    unfold MultiDict._get. now rewrite G.
  - eexists. split; [reflexivity|]. simpl. repeat split.
    + unfold MultiDict._get. now rewrite dict_get_set_same.
    + intros k Hk. now apply dict_get_set_other.
Qed.

Lemma X10_response_content_type_default_witness :
  exists r,
    Response.__init__ 200 (MultiDict.MDict [("content-type", VStr "application/json")])
                      [] "{}" = Ok r
    /\ Response.status r = 200%Z
    /\ Response.cookies r = []
    /\ MultiDict._get "content-type" [] (Response.headers r) = [VStr "application/json"]
    /\ forall k, String.eqb k "content-type" = false ->
                 dict_get k (Response.headers r)
                 = dict_get k [("content-type", [VStr "application/json"])].
Proof.
  apply (@X10_response_content_type_default 200%Z
           (MultiDict.MDict [("content-type", VStr "application/json")]) [] "{}"
           [("content-type", [VStr "application/json"])]).
  - reflexivity.
  - discriminate.
Defined.

Lemma error_status_in_range (st : Z) :
  Response.is_error_status st = true ->
  In st (map (fun i => Z.of_nat (400 + i)) (seq 0 200)).
Proof.
  unfold Response.is_error_status. intros H.
  apply andb_true_iff in H. destruct H as [H1 H2].
  apply Z.leb_le in H1. apply Z.ltb_lt in H2.
  apply in_map_iff. exists (Z.to_nat st - 400)%nat. split; [lia|].
  apply in_seq. lia.
Qed.

Lemma error_phrases_not_empty (st : Z) (p : string) :
  Response.is_error_status st = true ->
  HTTPStatus_phrase st = Some p -> Response.is_empty p = false.
Proof.
  intros He Hp.
  assert (A : forallb
                (fun n => match HTTPStatus_phrase n with
                          | Some q => negb (Response.is_empty q)
                          | None => true
                          end)
                (map (fun i => Z.of_nat (400 + i)) (seq 0 200)) = true)
    by (vm_compute; reflexivity).
  rewrite forallb_forall in A. specialize (A st (error_status_in_range st He)).
  rewrite Hp in A. now destruct (Response.is_empty p).
Qed.

(** X11: a Response built without a body has, for a standard 4xx or 5xx
    status, the status phrase as body, which is never empty; for a 4xx or
    5xx status without a phrase, and for any other status, the body stays
    empty.  A body that is given is always kept. *)
Theorem X11_error_response_body_default :
  forall (st : Z) (cks : pydict string),
    exists r0,
      Response.__init__ st MultiDict.MNone cks "" = Ok r0
      /\ (Response.is_error_status st = false -> Response.body r0 = "")
      /\ (forall p, Response.is_error_status st = true ->
                    HTTPStatus_phrase st = Some p ->
                    Response.body r0 = p /\ Response.is_empty p = false)
      /\ (HTTPStatus_phrase st = None ->
            Response.body r0 = "" /\ Response.description r0 = "")
      /\ forall b, Response.is_empty b = false ->
                   exists r, Response.__init__ st MultiDict.MNone cks b = Ok r
                             /\ Response.body r = b.
Proof.
  intros st cks. eexists. split; [reflexivity|]. simpl.
  split; [|split; [|split]].
  - intros H. now rewrite H.
  - intros p He Hp. rewrite He, Hp. split; [reflexivity|].
    now apply (error_phrases_not_empty st).
  - intros H. rewrite H. split; [|reflexivity].
    now destruct (Response.is_error_status st).
  - intros b Hb. eexists. split; [reflexivity|]. simpl. now rewrite Hb.
Qed.

Lemma X11_error_response_body_default_witness :
  exists r0,
    Response.__init__ 404 MultiDict.MNone [] "" = Ok r0
    /\ Response.body r0 = "Not Found".
Proof.
  destruct (X11_error_response_body_default 404 [])
    as (r0 & Hr & _ & Herr & _).
  exists r0. split; [exact Hr|].
  apply (Herr "Not Found"); reflexivity.
Defined.

(** ** Registration: [route] and [mount] *)

Lemma dict_set_keys (V : Type) (k : string) (v : V) (d : pydict V) :
  dict_keys (dict_set k v d)
  = if existsb (String.eqb k) (dict_keys d) then dict_keys d else dict_keys d ++ [k].
Proof.
  rewrite existsb_keys_get. destruct (dict_get k d) eqn:G.
  - now erewrite dict_keys_set_present by eassumption.
  - now apply dict_keys_set_absent.
Qed.

Lemma fold_methods_get (V : Type) (f : V) (methods : list string) :
  forall (tbl : pydict V) (m : string),
    dict_get m (fold_left (fun t mm => dict_set mm f t) methods tbl)
    = if existsb (String.eqb m) methods then Some f else dict_get m tbl.
Proof.
  induction methods as [|mm ms IH]; intros tbl m; simpl; [reflexivity|].
  rewrite IH. destruct (existsb (String.eqb m) ms).
  - now rewrite orb_true_r.
  - rewrite orb_false_r. destruct (String.eqb m mm) eqn:E.
    + apply String.eqb_eq in E. subst. apply dict_get_set_same.
    + now apply dict_get_set_other.
Qed.

Lemma fold_methods_keys (V : Type) (f : V) (methods : list string) :
  forall tbl : pydict V,
    dict_keys (fold_left (fun t mm => dict_set mm f t) methods tbl)
    = fold_left (fun acc k => if existsb (String.eqb k) acc then acc else acc ++ [k])
                methods (dict_keys tbl).
Proof.
  induction methods as [|mm ms IH]; intros tbl; simpl; [reflexivity|].
  now rewrite IH, dict_set_keys.
Qed.

(** X12: registering a handler for a path and methods merges into what
    the path already has: the listed methods now map to the handler, the
    path's other methods keep theirs, methods keep their place (new ones
    go last, in the order given), other paths are untouched, and a new
    path goes last in the table. *)
Theorem X12_route_merges_methods :
  forall (W : Type) (path : string) (methods : list string) (f : handler W)
         (table : pydict (methods_table W)),
    let old := match dict_get path table with Some t => t | None => [] end in
    exists tbl,
      dict_get path (route path methods f table) = Some tbl
      /\ (forall m, dict_get m tbl
                    = if existsb (String.eqb m) methods then Some f
                      else dict_get m old)
      /\ dict_keys tbl
         = fold_left (fun acc k => if existsb (String.eqb k) acc then acc else acc ++ [k])
                     methods (dict_keys old)
      /\ (forall p, String.eqb p path = false ->
                    dict_get p (route path methods f table) = dict_get p table)
      /\ dict_keys (route path methods f table)
         = if existsb (String.eqb path) (dict_keys table) then dict_keys table
           else dict_keys table ++ [path].
Proof.
  intros W path methods f table old.
  unfold route, dict_setdefault. subst old.
  unfold methods_table, handler, pydict in *.
  destruct (dict_get path table) as [t|] eqn:G.
  - eexists. split; [apply dict_get_set_same|]. split; [apply fold_methods_get|].
    split; [apply fold_methods_keys|]. split.
    + intros p Hp. now apply dict_get_set_other.
    + rewrite dict_set_keys. reflexivity.
  - eexists. split; [apply dict_get_set_same|]. split; [apply fold_methods_get|].
    split; [apply fold_methods_keys|]. split.
    + intros p Hp. now rewrite !dict_get_set_other.
    + rewrite dict_set_set, dict_set_keys. reflexivity.
Qed.

Lemma string_append_injective (p a b : string) :
  (p ++ a)%string = (p ++ b)%string -> a = b.
Proof.
  induction p as [|c p IH]; simpl; [auto|].
  intros H. inversion H. auto.
Qed.

Lemma prefixed_unique (V : Type) (prefix : string) (o : pydict V) :
  unique_keys o ->
  unique_keys (map (fun kv => ((prefix ++ fst kv)%string, snd kv)) o).
Proof.
  unfold unique_keys, dict_keys. rewrite map_map. simpl.
  induction o as [|[k v] o IH]; simpl; intros U; [constructor|].
  inversion U as [|? ? Hnin Hnd]; subst. constructor; [|now apply IH].
  intros Hin. apply in_map_iff in Hin. destruct Hin as ([k2 v2] & E & Hin).
  simpl in E. apply string_append_injective in E. subst k2.
  apply Hnin. change k with (fst (k, v2)). now apply in_map.
Qed.

Lemma prefixed_get (V : Type) (prefix : string) (o : pydict V) (p : string) :
  dict_get (prefix ++ p) (map (fun kv => ((prefix ++ fst kv)%string, snd kv)) o)
  = dict_get p o.
Proof.
  induction o as [|[k v] o IH]; simpl; [reflexivity|].
  destruct (String.eqb p k) eqn:E.
  - apply String.eqb_eq in E. subst. now rewrite String.eqb_refl.
  - destruct (String.eqb (prefix ++ p) (prefix ++ k)) eqn:E2; [|exact IH].
    apply String.eqb_eq, string_append_injective in E2. subst.
    now rewrite String.eqb_refl in E.
Qed.

Lemma prefixed_get_none (V : Type) (prefix : string) (o : pydict V) (k : string) :
  (forall p, In p (dict_keys o) -> (prefix ++ p)%string <> k) ->
  dict_get k (map (fun kv => ((prefix ++ fst kv)%string, snd kv)) o) = None.
Proof.
  induction o as [|[k2 v2] o IH]; simpl; intros H; [reflexivity|].
  destruct (String.eqb k (prefix ++ k2)) eqn:E.
  - apply String.eqb_eq in E. exfalso. apply (H k2); auto.
  - apply IH. intros p Hp. apply H. now right.
Qed.

(** X13: mounting an application under a prefix, before startup: every
    path of the mounted application is served at prefix + path with the
    mounted method table, which replaces (does not merge with) a table
    already registered there; paths that are not prefix + a mounted path
    keep their tables; the hooks of the mounted application run after
    those already registered; the content limit is the larger one. *)
Theorem X13_mount_replaces_under_prefix :
  forall (W : Type) (L : Lib) (self other : App W L) (prefix : string)
         (t o : pydict (methods_table W)),
    _routes self = Uncompiled L t ->
    _routes other = Uncompiled L o ->
    unique_keys o ->
    exists app' t',
      mount self other prefix = Some app'
      /\ _routes app' = Uncompiled L t'
      /\ (forall p mt, dict_get p o = Some mt ->
                       dict_get (prefix ++ p) t' = Some mt)
      /\ (forall k, (forall p, In p (dict_keys o) -> (prefix ++ p)%string <> k) ->
                    dict_get k t' = dict_get k t)
      /\ _before app' = _before self ++ _before other
      /\ _after app' = _after self ++ _after other
      /\ _startup app' = _startup self ++ _startup other
      /\ _shutdown app' = _shutdown self ++ _shutdown other
      /\ _max_content app' = Z.max (_max_content self) (_max_content other).
Proof.
  intros W L self other prefix t o Hs Ho U.
  unfold mount. rewrite Hs, Ho. eexists. eexists. split; [reflexivity|].
  simpl. split; [reflexivity|].
  pose proof (prefixed_unique prefix U) as U'.
  unfold mount_routes. rewrite (dict_of_pairs_unique U').
  split; [|split; [|repeat split]].
  - intros p mt Hp. rewrite (fold_set_get U'), prefixed_get, Hp. reflexivity.
  - intros k Hk. rewrite (fold_set_get U'), (prefixed_get_none _ _ Hk). reflexivity.
Qed.

Lemma X13_mount_replaces_under_prefix_witness :
  let self : App unit example_lib :=
    mkApp (Uncompiled example_lib
             (route "/api/items" ["DELETE"] (returning "old" VNone) []))
          [] [] [returning "log" VNone] [] 10 in
  let other : App unit example_lib :=
    mkApp (Uncompiled example_lib example_table) [] []
          [returning "auth" VNone] [] 20 in
  exists app' t',
    mount self other "/api" = Some app'
    /\ _routes app' = Uncompiled example_lib t'
    /\ dict_get "/api/items" t' = dict_get "/items" example_table
    /\ _before app' = [returning "log" VNone; returning "auth" VNone]
    /\ _max_content app' = 20%Z.
Proof.
  intros self other.
  destruct (@X13_mount_replaces_under_prefix unit example_lib self other "/api"
              (route "/api/items" ["DELETE"] (returning "old" VNone) [])
              example_table eq_refl eq_refl)
    as (app' & t' & Hm & Hr & Hget & _ & Hb & _ & _ & _ & Hmax).
  - repeat constructor; simpl; intuition discriminate.
  - exists app', t'. split; [exact Hm|]. split; [exact Hr|].
    split; [|split; [exact Hb | exact Hmax]].
    apply (Hget "/items"). reflexivity.
Defined.

(** ** Lifespan: startup and shutdown *)

Section MoreLifespanFacts.
Variable W : Type.
Variable L : Lib.

Lemma run_hooks_done_trace (tag : string -> call) (hooks : list (func W (pydict value))) :
  forall state w tr state' w' tr',
    run_hooks tag hooks state w tr = (Done tt, state', w', tr') ->
    tr' = tr ++ map (fun f => tag (fname f)) hooks.
Proof.
  induction hooks as [|f hooks IH]; intros state w tr state' w' tr' H; simpl in *.
  - inversion H. now rewrite app_nil_r.
  - destruct (fbody f state w) as [[o s1] w1]. destruct o; try discriminate.
    apply IH in H. rewrite H. now rewrite <- app_assoc.
Qed.


Lemma compile_table_first_error (t1 t2 : pydict (methods_table W)) k v e :
  forall ps1,
    compile_table L t1 = Ok ps1 ->
    re_compile L k = Err e ->
    compile_table L (t1 ++ (k, v) :: t2) = Err e.
Proof.
  induction t1 as [|[k1 v1] t1 IH]; intros ps1 H1 Hk; simpl in *.
  - now rewrite Hk.
  - destruct (re_compile L k1); [|discriminate].
    destruct (compile_table L t1) as [ps'|e1] eqn:E1; [|discriminate].
    now rewrite (IH ps' eq_refl Hk).
Qed.


(** X15: when the startup hooks return but a route path is no valid
    pattern, the startup event fails like a failing hook: one
    [lifespan.startup.failed] message carrying the error of the first
    path that does not compile, the loop stops, and the route table
    stays uncompiled, also for the paths that did compile. *)
Theorem X15_startup_bad_pattern_fails :
  forall (app : App W L) (t1 t2 : pydict (methods_table W)) k v e ps1
         (events : list string) state w tr sent state' w' tr',
    _routes app = Uncompiled L (t1 ++ (k, v) :: t2) ->
    run_hooks CallStartup (_startup app) state w tr = (Done tt, state', w', tr') ->
    compile_table L t1 = Ok ps1 ->
    re_compile L k = Err e ->
    lifespan app ("lifespan.startup" :: events) state w tr sent
    = mkLifespan app state' w' tr'
        (sent ++ [mkMessage "lifespan.startup.failed"
                    (Some (ecls e ++ ": " ++ emsg e)%string)])
        Stopped.
Proof.
  intros app t1 t2 k v e ps1 events state w tr sent state' w' tr' Hr Hh H1 Hk.
  simpl. rewrite Hh. unfold compile_routes. rewrite Hr.
  now erewrite compile_table_first_error by eassumption.
Qed.

(** X16: the shutdown event ends the loop whatever the hooks do: when
    they all return, they were called in registration order and
    [lifespan.shutdown.complete] is sent; when one raises, the later ones
    are not called and [lifespan.shutdown.failed] carries the error.
    Events after the shutdown event are never read, and the route table
    is not touched. *)
Theorem X16_shutdown_ends_the_loop :
  forall (app : App W L) (events : list string) state w tr sent,
    let res := lifespan app ("lifespan.shutdown" :: events) state w tr sent in
    ls_app res = app
    /\ (forall state' w' tr',
           run_hooks CallShutdown (_shutdown app) state w tr = (Done tt, state', w', tr') ->
           res = mkLifespan app state' w'
                   (tr ++ map (fun f => CallShutdown (fname f)) (_shutdown app))
                   (sent ++ [mkMessage "lifespan.shutdown.complete" None]) Stopped)
    /\ (forall pre h post state1 w1 tr1 e state2 w2,
           _shutdown app = pre ++ h :: post ->
           run_hooks CallShutdown pre state w tr = (Done tt, state1, w1, tr1) ->
           fbody h state1 w1 = (Raised e, state2, w2) ->
           res = mkLifespan app state2 w2 (tr1 ++ [CallShutdown (fname h)])
                   (sent ++ [mkMessage "lifespan.shutdown.failed"
                               (Some (exn_name e ++ ": " ++ exn_str e)%string)])
                   Stopped).
Proof.
  intros app events state w tr sent res. subst res. simpl. split; [|split].
  - destruct (run_hooks CallShutdown (_shutdown app) state w tr)
      as [[[[[]| |] s1] w1] tr1]; reflexivity.
  - intros state' w' tr' H. rewrite H.
    now rewrite (run_hooks_done_trace _ _ _ _ _ H).
  - intros pre h post state1 w1 tr1 e state2 w2 Hs Hpre Hh.
    rewrite Hs, run_hooks_app, Hpre. simpl. now rewrite Hh.
Qed.
End MoreLifespanFacts.


(** A library whose [re.compile] rejects the pattern ["("]. *)
Lemma X15_startup_bad_pattern_fails_witness :
  let lib := mkLib (fun s => if String.eqb s "(" then Err (mkError "error" "missing )")
                             else Ok s)
                   (fullmatch example_lib) (json_dumps example_lib)
                   (decode_utf8 example_lib) (normalize_NFC example_lib)
                   (cookie_load example_lib) (parse_options_header example_lib)
                   (ijson_items example_lib) (create_form_parser example_lib)
                   (fp_write example_lib) (fp_finalize example_lib) in
  let app : App unit lib :=
    mkApp (Uncompiled lib [("/", []); ("(", []); ("/x", [])]) [] [] [] [] 1048576 in
  lifespan app ["lifespan.startup"; "lifespan.shutdown"] [] tt [] []
  = mkLifespan app [] tt []
      [mkMessage "lifespan.startup.failed" (Some "error: missing )")] Stopped.
Proof.
  intros lib app.
  apply (@X15_startup_bad_pattern_fails unit lib app [("/", [])] [("/x", [])] "(" []
           (mkError "error" "missing )") [("/", [])] ["lifespan.shutdown"]
           [] tt [] [] [] tt [] eq_refl eq_refl eq_refl eq_refl).
Defined.

Lemma X16_shutdown_ends_the_loop_witness :
  let app : App unit example_lib :=
    mkApp (Uncompiled example_lib [])
          [] [returning "flush" VNone;
              raising "close_db" (ExcError (mkError "OSError" "gone"));
              returning "bye" VNone] [] [] 1048576 in
  lifespan app ["lifespan.shutdown"; "lifespan.startup"] [] tt [] []
  = mkLifespan app [] tt [CallShutdown "flush"; CallShutdown "close_db"]
      [mkMessage "lifespan.shutdown.failed" (Some "OSError: gone")] Stopped.
Proof.
  intros app.
  destruct (@X16_shutdown_ends_the_loop unit example_lib app ["lifespan.startup"]
              [] tt [] []) as (_ & _ & H).
  apply (H [returning "flush" VNone]
           (raising "close_db" (ExcError (mkError "OSError" "gone")))
           [returning "bye" VNone] [] tt [CallShutdown "flush"]
           (ExcError (mkError "OSError" "gone")) [] tt eq_refl eq_refl eq_refl).
Defined.

(** ** Body: positive sizes and empty bodies *)

(** X17: chunking invariance for [read(n)] with [n > 0]: whatever the
    chunk boundaries, when the last event carries data, the successive
    reads end (one read per byte at most, and one more), each returns at
    most [n] bytes, together they return exactly the bytes received, and
    the events after the last one of the body are not taken. *)
Theorem X17_read_positive_chunking_invariance :
  forall (n : Z) (pre : list event) (last : event) (post : list event),
    (0 < n)%Z ->
    Forall (fun ev => more_body ev = true) pre ->
    more_body last = false ->
    Response.is_empty (ev_body last) = false ->
    exists chunks,
      Body.read_until_empty (String.length (received (pre ++ [last])) + 2) n
                            Body.__init__ (pre ++ last :: post)
      = Some (Done chunks, Body.mk "" true, post)
      /\ join_bytes chunks = received (pre ++ [last])
      /\ Forall (fun ch => String.length ch <= Z.to_nat n) chunks.
Proof. intros. now apply read_positive_from_start. Qed.

Lemma X17_read_positive_chunking_invariance_witness :
  exists chunks,
    Body.read_until_empty 8 4 Body.__init__
      [mkEvent "ab" true; mkEvent "" true; mkEvent "cdef" false]
    = Some (Done chunks, Body.mk "" true, [])
    /\ join_bytes chunks = "abcdef"
    /\ Forall (fun ch => String.length ch <= 4) chunks.
Proof.
  apply (@X17_read_positive_chunking_invariance 4
           [mkEvent "ab" true; mkEvent "" true] (mkEvent "cdef" false) []).
  - reflexivity.
  - repeat constructor.
  - reflexivity.
  - reflexivity.
Defined.

Lemma fill_all_empty (events : list event) :
  Forall (fun ev => ev_body ev = "") events ->
  forall fin,
    exists fin',
      Body.fill (Body.mk "" fin) events = (Pending, Body.mk "" fin', []).
Proof.
  induction 1 as [|ev events Hev Hall IH]; intros fin; simpl.
  - now exists fin.
  - rewrite Hev. simpl. apply IH.
Qed.

(** X18: on a body whose events all carry no data (an empty request body
    is one event with an empty payload), [read(n)] with [n] not zero does
    not return: having taken every event, the final one included, the
    reader awaits a further event. *)
Theorem X18_read_of_empty_body_waits :
  forall (n : Z) (events : list event),
    n <> 0%Z ->
    Forall (fun ev => ev_body ev = "") events ->
    exists fin,
      Body.read n Body.__init__ events = (Pending, Body.mk "" fin, []).
Proof.
  intros n events Hn Hall. unfold Body.read.
  destruct (n =? 0)%Z eqn:E; [apply Z.eqb_eq in E; contradiction|].
  simpl. destruct (fill_all_empty Hall false) as [fin Hf].
  unfold Body.__init__. rewrite Hf. now exists fin.
Qed.

Lemma X18_read_of_empty_body_waits_witness :
  exists fin,
    Body.read 65536 Body.__init__ [mkEvent "" false] = (Pending, Body.mk "" fin, []).
Proof.
  apply (@X18_read_of_empty_body_waits 65536 [mkEvent "" false]).
  - discriminate.
  - repeat constructor.
Defined.

(** ** The request pipeline: after-hooks, exceptions, malformed headers *)

Section MorePipelineFacts.
Variable W : Type.
Variable L : Lib.
Implicit Types (c : ctx W).

Lemma asyncfy_after_trace (f : func W (Request.t * Response.t)) resp c :
  trace (snd (asyncfy_after f resp c)) = trace c ++ [CallAfter (fname f)].
Proof.
  unfold asyncfy_after.
  destruct (fbody f (request c, resp) (world c)) as [[o [req' resp']] w'].
  now destruct o.
Qed.

Lemma run_after_app (pre post : list (func W (Request.t * Response.t))) :
  forall resp c,
    run_after L (pre ++ post) resp c
    = match run_after L pre resp c with
      | (Done r', c') => run_after L post r' c'
      | other => other
      end.
Proof.
  induction pre as [|f pre IH]; intros resp c; [reflexivity|].
  cbn [run_after app]. unfold bind.
  destruct (asyncfy_after f resp c) as [[[a r1]| |] c1]; try reflexivity.
  cbn [fst snd]. destruct (Response.truthy a); [|apply IH].
  destruct (raise_from_any_ctx (W:=W) L Response.t a c1) as [_ Hnd].
  destruct (raise_from_any L a c1) as [[x| |] c2]; try reflexivity.
  now destruct (Hnd x).
Qed.

Lemma run_after_done_trace (hooks : list (func W (Request.t * Response.t))) :
  forall resp c r' c',
    run_after L hooks resp c = (Done r', c') ->
    trace c' = trace c ++ after_calls hooks.
Proof.
  intros resp c r' c' H.
  destruct (run_after_trace L hooks resp c) as (k & Ht & _ & Hdone).
  rewrite H in Ht. simpl in Ht. rewrite Ht, (Hdone _ _ H).
  now rewrite firstn_all.
Qed.

(** X19: an after-hook that returns a true value replaces the response:
    when the after-hooks before it returned false values, the value it
    returns, coerced by [from_any], is the final response, and the
    after-hooks registered after it are not called.  When every after-hook
    returns a false value, all are called and the final response is the
    one they were handed, as they left it. *)
Theorem X19_after_hook_replaces_response :
  forall (app : App W L) resp c,
    (forall pre h post r1 c1 a r2 c2 r3,
        _after app = pre ++ h :: post ->
        run_after L pre resp c = (Done r1, c1) ->
        asyncfy_after h r1 c1 = (Done (a, r2), c2) ->
        Response.truthy a = true ->
        Response.from_any (json_dumps L) a = Ok r3 ->
        finish app resp c = (Done r3, c2)
        /\ trace c2 = trace c ++ after_calls pre ++ [CallAfter (fname h)])
    /\ (forall r' c',
          run_after L (_after app) resp c = (Done r', c') ->
          finish app resp c = (Done r', c')
          /\ trace c' = trace c ++ after_calls (_after app)).
Proof.
  intros app resp c. split.
  - intros pre h post r1 c1 a r2 c2 r3 Ha Hpre Hh Ht Hr. split.
    + unfold finish, try_except_Response.
      rewrite Ha, run_after_app, Hpre. cbn [run_after]. unfold bind at 1.
      rewrite Hh. cbn [fst snd]. rewrite Ht. unfold raise_from_any.
      rewrite Hr. reflexivity.
    + pose proof (asyncfy_after_trace h r1 c1) as T. rewrite Hh in T.
      simpl in T. rewrite T. erewrite run_after_done_trace by exact Hpre.
      now rewrite <- app_assoc.
  - intros r' c' H. split.
    + unfold finish, try_except_Response. now rewrite H.
    + eapply run_after_done_trace. exact H.
Qed.

(** X20: what a handler raises.  A [Response] raised by the matched
    handler is the response: it goes to the after-hooks like a returned
    one.  Any other exception escapes the pipeline: no response is
    produced and no after-hook is called. *)
Theorem X20_handler_exceptions :
  forall (app : App W L) (rs rs1 rs2 : list (pattern L * methods_table W))
         p mt groups f c c1 e req' w',
    _routes app = Compiled L rs ->
    run_before L (_before app) c = (Done tt, c1) ->
    rs = rs1 ++ (p, mt) :: rs2 ->
    (forall q mt', In (q, mt') rs1 ->
                   fullmatch L q (Request.path (request c1)) = None) ->
    fullmatch L p (Request.path (request c1)) = Some groups ->
    dict_get (Request.method (request c1)) mt = Some f ->
    fbody f (Request.set_params groups (request c1)) (world c1)
    = (Raised e, req', w') ->
    let c2 := mkCtx req' (stream c1) w' (trace c1 ++ [CallHandler (fname f)]) in
    serve app c
    = match e with
      | ExcResponse r => finish app r c2
      | ExcError _ => (Raised e, c2)
      end.
Proof.
  intros app rs rs1 rs2 p mt groups f c c1 e req' w'
         Hr Hb Hrs Hskip Hp Hm Hf c2.
  assert (D : dispatch (_routes app) c1 = (Raised e, c2)).
  { rewrite Hr, Hrs. cbn [dispatch].
    rewrite match_routes_skip by assumption. cbn [match_routes].
    rewrite Hp. cbn [with_request request Request.set_params Request.method].
    rewrite Hm. unfold bind, asyncfy, with_request.
    cbn [request world stream trace]. rewrite Hf. reflexivity. }
  unfold serve, bind at 1, try_except_Response at 1, bind at 1.
  rewrite Hb, D. now destruct e.
Qed.

Lemma decode_headers_fails raw k v :
  In (k, v) raw ->
  decode_ascii k = None \/ decode_utf8 L v = None ->
  decode_headers L raw = None.
Proof.
  induction raw as [|[k2 v2] raw IH]; simpl; [tauto|].
  intros [Hin|Hin] Hbad.
  - inversion Hin. subst.
    destruct Hbad as [Hb|Hb]; rewrite Hb; [reflexivity|].
    now destruct (decode_ascii k).
  - rewrite (IH Hin Hbad).
    destruct (decode_ascii k2); [|reflexivity].
    now destruct (decode_utf8 L v2).
Qed.

(** X21: a request with a header whose name is not ASCII, or whose value
    does not decode, is answered with 400 Bad Request: no body event is
    read, no before-hook and no handler is called, and the after-hooks
    run on the 400 response. *)
Theorem X21_undecodable_header_gives_400 :
  forall (app : App W L) (sc : scope) (events : list event) (w : W) k v,
    In (k, v) (sc_headers sc) ->
    decode_ascii k = None \/ decode_utf8 L v = None ->
    exists req r,
      new_request sc = Ok req
      /\ Response.__init__ 400 MultiDict.MNone [] "" = Ok r
      /\ Response.status r = 400%Z
      /\ Response.body r = "Bad Request"
      /\ http app sc events w
         = (let '(o, c) := finish app r (mkCtx req events w []) in
            (o, world c, trace c))
      /\ exists n, snd (http app sc events w) = after_calls (firstn n (_after app)).
Proof.
  intros app sc events w k v Hin Hbad.
  assert (N : exists req, new_request sc = Ok req)
    by (unfold new_request, Request.__init__; rewrite MultiDict_init_seq;
        eexists; reflexivity).
  destruct N as [req Hreq]. exists req. eexists.
  split; [exact Hreq|]. split; [reflexivity|].
  split; [reflexivity|]. split; [reflexivity|].
  assert (H : http app sc events w
              = (let '(o, c) :=
                   finish app
                     {| Response.status := 400;
                        Response.description := "Bad Request";
                        Response.headers :=
                          [("content-type", [VStr "text/html; charset=utf-8"])];
                        Response.cookies := [];
                        Response.body := "Bad Request" |}
                     (mkCtx req events w []) in
                 (o, world c, trace c))).
  { unfold http. rewrite Hreq.
    unfold bind at 1, process, try_except_Response at 1, bind at 1, parse_headers.
    rewrite (decode_headers_fails _ _ _ Hin Hbad). reflexivity. }
  split; [exact H|].
  rewrite H.
  match goal with |- context [finish app ?r ?c0] =>
    destruct (run_after_trace L (_after app) r c0) as (n & Hn & _);
    pose proof (finish_trace app r c0) as Hf;
    destruct (finish app r c0) as [o c'] eqn:E
  end.
  exists n. simpl in *. now rewrite Hf, Hn.
Qed.

Lemma stage_keeps_body_headers (raw : list (string * string)) c :
  Request.body (request (snd (parse_headers L raw c))) = Request.body (request c).
Proof.
  unfold parse_headers. destruct (decode_headers L raw); [|reflexivity].
  now destruct (Headers.__init__ _).
Qed.

Lemma form_loop_keeps_body (max_content : Z) :
  forall events (fp : form_parser L) req,
    Request.body (snd (fst (form_loop L max_content fp req events)))
    = Request.body req.
Proof.
  induction events as [|ev rest IH]; intros fp req; simpl; [reflexivity|].
  destruct (fp_write L fp (ev_body ev)) as [[fp' fields]|e]; [|reflexivity].
  destruct (_ >? _)%Z; [reflexivity|].
  destruct (more_body ev); [|reflexivity].
  now rewrite IH.
Qed.

Lemma set_json_all_keeps_body items req :
  Request.body (fold_left (fun r j => Request.set_json j r) items req)
  = Request.body req.
Proof.
  revert req. induction items as [|j items IH]; intros req; simpl; [reflexivity|].
  now rewrite IH.
Qed.

(** X22: decoding never stores the raw body: whatever the content type
    and the events, [request.body] after the header, cookie and content
    stages is what it was before them (the empty bytes set at
    construction), whether the stages succeed or raise. *)
Theorem X22_decoding_never_sets_body :
  forall (raw : list (string * string)) (max_content : Z) c,
    Request.body
      (request
         (snd (bind (parse_headers L raw)
                    (fun _ => bind (load_cookies L)
                                   (fun _ => decode_content L max_content)) c)))
    = Request.body (request c).
Proof.
  intros raw max_content c. unfold bind at 1.
  pose proof (stage_keeps_body_headers raw c) as H1.
  destruct (parse_headers L raw c) as [[[]| |] c1]; simpl in H1; try exact H1.
  rewrite <- H1. clear H1 c.
  unfold bind at 1, load_cookies, bind at 1, header_text.
  destruct (Headers.get "cookie" (VStr "") (Request.headers (request c1)))
    as [[]|]; try reflexivity.
  destruct (cookie_load L s) as [ck|]; [|reflexivity].
  unfold decode_content, bind, header_text.
  cbn [request with_request Request.headers Request.set_cookies].
  destruct (Headers.get "content-type" (VStr "") (Request.headers (request c1)))
    as [[]|]; try reflexivity.
  destruct (select_decoder (fst (parse_options_header L s0))).
  - unfold decode_json. cbn [stream with_request].
    destruct (ijson_items L Body.__init__ (stream c1)) as [[items| |] rest];
      cbn [snd request with_request with_stream Request.body Request.set_cookies].
    + now rewrite set_json_all_keeps_body.
    + now destruct (is_json_error e).
    + reflexivity.
  - unfold decode_form.
    cbn [request with_request Request.headers Request.set_form Request.set_cookies stream].
    destruct (create_form_parser L (Request.headers (request c1))); [|reflexivity].
    match goal with |- context [form_loop L max_content ?fp ?rq ?evs] =>
      pose proof (form_loop_keeps_body max_content evs fp rq) as Hb;
      destruct (form_loop L max_content fp rq evs) as [[o req1] rest]
    end.
    simpl in Hb.
    destruct o as [fp'| |]; [destruct (fp_finalize L fp')| |]; exact Hb.
  - reflexivity.
Qed.



End MorePipelineFacts.

Lemma X19_after_hook_replaces_response_witness :
  let app := example_app []
               [returning "cors" VNone; returning "override" (VStr "replaced");
                returning "never" VNone] 1048576 in
  let resp := Response.mk 200 "OK" [("content-type", [VStr "text/plain"])] [] "hello" in
  let c := mkCtx (example_request "GET" "/") [] tt [] in
  finish app resp c
  = (Done (Response.mk 200 "OK"
             [("content-type", [VStr "text/html; charset=utf-8"])] [] "replaced"),
     mkCtx (example_request "GET" "/") [] tt [CallAfter "cors"; CallAfter "override"]).
Proof.
  intros app resp c.
  destruct (@X19_after_hook_replaces_response unit example_lib app resp c) as [H _].
  apply (H [returning "cors" VNone] (returning "override" (VStr "replaced"))
           [returning "never" VNone] resp
           (mkCtx (example_request "GET" "/") [] tt [CallAfter "cors"])
           (Response.AVal (VStr "replaced")) resp
           (mkCtx (example_request "GET" "/") [] tt
                  [CallAfter "cors"; CallAfter "override"])
           (Response.mk 200 "OK"
              [("content-type", [VStr "text/html; charset=utf-8"])] [] "replaced")
           eq_refl eq_refl eq_refl eq_refl eq_refl).
Defined.

Lemma X20_handler_exceptions_witness :
  let boom := ExcError (ValueError "boom") in
  let app : App unit example_lib :=
    mkApp (Compiled example_lib [("/", [("GET", raising "root" boom)])])
          [] [] [returning "log" VNone] [returning "cors" VNone] 1048576 in
  serve app (mkCtx (example_request "GET" "/") [] tt [])
  = (Raised boom,
     mkCtx (example_request "GET" "/") [] tt [CallBefore "log"; CallHandler "root"]).
Proof.
  intros boom app.
  apply (@X20_handler_exceptions unit example_lib app
           [("/", [("GET", raising "root" boom)])] []  []
           "/" [("GET", raising "root" boom)] [] (raising "root" boom)
           (mkCtx (example_request "GET" "/") [] tt [])
           (mkCtx (example_request "GET" "/") [] tt [CallBefore "log"])
           boom (example_request "GET" "/") tt
           eq_refl eq_refl eq_refl).
  - intros q mt' [].
  - reflexivity.
  - reflexivity.
  - reflexivity.
Defined.

Lemma X21_undecodable_header_gives_400_witness :
  let sc := mkScope "GET" "/" "" [(String (ascii_of_nat 233) "x", "1")] None in
  exists req r,
    new_request sc = Ok req
    /\ Response.__init__ 400 MultiDict.MNone [] "" = Ok r
    /\ Response.status r = 400%Z
    /\ Response.body r = "Bad Request"
    /\ http (example_app [returning "auth" (VInt 401)] [returning "cors" VNone] 1048576)
            sc [] tt
       = (let '(o, c) :=
            finish (example_app [returning "auth" (VInt 401)]
                                [returning "cors" VNone] 1048576)
                   r (mkCtx req [] tt []) in
          (o, world c, trace c))
    /\ exists n,
         snd (http (example_app [returning "auth" (VInt 401)]
                                [returning "cors" VNone] 1048576) sc [] tt)
         = after_calls (firstn n [returning "cors" VNone]).
Proof.
  intros sc.
  apply (@X21_undecodable_header_gives_400 unit example_lib
           (example_app [returning "auth" (VInt 401)] [returning "cors" VNone] 1048576)
           sc [] tt (String (ascii_of_nat 233) "x") "1").
  - left. reflexivity.
  - left. reflexivity.
Defined.


(** ** Serialisation *)

Section SerializeFacts.
Variable str_value : value -> string.
Variable cookies_output : pydict string -> list string.

Lemma header_lines_lowercase (h : MultiDict.t) :
  Forall (fun line => lower (fst line) = fst line) (header_lines str_value h).
Proof.
  unfold header_lines, MultiDict._items.
  induction h as [|[k l] h IH]; simpl; [constructor|].
  apply Forall_app. split; [|exact IH].
  apply Forall_forall. intros x Hx. apply in_map_iff in Hx.
  destruct Hx as (v & Hv & _). subst x. apply lower_idempotent.
Qed.

Lemma header_lines_In (h : MultiDict.t) k l v :
  dict_get k h = Some l -> In v l ->
  In (lower k, str_value v) (header_lines str_value h).
Proof.
  intros G Hv. unfold header_lines, MultiDict._items.
  apply in_flat_map. exists (k, l). split; [now apply dict_get_In|].
  simpl. apply in_map_iff. now exists v.
Qed.

Lemma final_headers_content_length (r : Response.t) (h : MultiDict.t) :
  final_headers cookies_output r = Ok h ->
  dict_get "content-length" h
  = Some [VInt (Z.of_nat (String.length (Response.body r)))].
Proof.
  unfold final_headers, MultiDict._update. simpl.
  destruct (Response.cookies r).
  - intros H. inversion H. apply dict_get_set_same.
  - destruct (all_ok after_colon_space _); [|discriminate].
    intros H. inversion H.
    rewrite dict_get_set_other by reflexivity. apply dict_get_set_same.
Qed.

(** X24: the frames sent for a response.  Without cookies serialisation
    cannot fail.  When it succeeds, exactly two frames are sent, the
    start frame with the response status and then the body frame with the
    response body; every header name in the start frame is in lower case;
    the [content-length] header is stored with the length of the body as
    its only value, replacing whatever the handler stored under that
    name, and its line is in the start frame. *)
Theorem X24_serialize_frames :
  forall r : Response.t,
    (Response.cookies r = [] ->
     exists frames, serialize str_value cookies_output r = Ok frames)
    /\ forall frames,
         serialize str_value cookies_output r = Ok frames ->
         exists h lines,
           final_headers cookies_output r = Ok h
           /\ frames = [ResponseStart (Response.status r) lines;
                        ResponseBody (Response.body r)]
           /\ Forall (fun line => lower (fst line) = fst line) lines
           /\ MultiDict._get "content-length" [] h
              = [VInt (Z.of_nat (String.length (Response.body r)))]
           /\ In ("content-length",
                  str_value (VInt (Z.of_nat (String.length (Response.body r)))))
                 lines.
Proof.
  intros r. split.
  - intros Hc. unfold serialize, final_headers. rewrite Hc. eexists. reflexivity.
  - intros frames H. unfold serialize in H.
    destruct (final_headers cookies_output r) as [h|e] eqn:F; [|discriminate].
    inversion H. exists h, (header_lines str_value h).
    pose proof (final_headers_content_length r F) as G.
    split; [reflexivity|]. split; [reflexivity|].
    split; [apply header_lines_lowercase|]. split.
    + unfold MultiDict._get. now rewrite G.
    + change "content-length" with (lower "content-length").
      eapply header_lines_In; [exact G | now left].
Qed.
End SerializeFacts.

Lemma X24_serialize_frames_witness :
  let str := fun v => match v with VStr s => s | VInt 5 => "5" | _ => "?" end in
  let r := Response.mk 200 "OK"
             [("Content-Type", [VStr "text/plain"]); ("content-length", [VStr "999"])]
             [] "hello" in
  exists h lines,
    final_headers (fun _ => []) r = Ok h
    /\ [ResponseStart 200 [("content-type", "text/plain"); ("content-length", "5")];
        ResponseBody "hello"]
       = [ResponseStart (Response.status r) lines; ResponseBody (Response.body r)]
    /\ Forall (fun line => lower (fst line) = fst line) lines
    /\ MultiDict._get "content-length" [] h = [VInt 5]
    /\ In ("content-length", "5") lines.
Proof.
  intros str r.
  destruct (X24_serialize_frames str (fun _ => []) r) as [_ H].
  apply (H [ResponseStart 200 [("content-type", "text/plain"); ("content-length", "5")];
            ResponseBody "hello"]).
  reflexivity.
Defined.
